(** * Dormitory Finance API

    A shallow embedding of [src/main.py] and [src/schemas.py]: the admin gate,
    the four transaction routes and the request validation that FastAPI and
    pydantic derive from the handlers' signatures.

    Conventions of the model:
    - a MongoDB document (a Python [dict]) is a [gmap string pyvalue];
    - a Python [int] is a [Z]; a Python [float] is an IEEE 754 binary64
      value, a [spec_float] with the operations of [SpecFloat] at precision
      53 and round to nearest even;
    - a naive [datetime] is the number of microseconds since [datetime.min];
    - an exception is a value of [exn]; a computation that may raise returns
      a [result]. *)

From Stdlib Require Import ZArith NArith Ascii String SpecFloat.
From stdpp Require Import base option strings pretty gmap list sorting.

Local Open Scope string_scope.
Local Open Scope Z_scope.

(** ** Python values found in documents *)

#[global] Instance spec_float_eq_dec : EqDecision spec_float.
Proof. solve_decision. Defined.

(** [PyNum] is an [int], [PyFloat] a [float]. *)
Inductive pyvalue :=
| PyNone
| PyNum (n : Z)
| PyFloat (x : spec_float)
| PyStr (s : string)
| PyDatetime (t : N)
| PyObjectId (hex : string).

#[global] Instance pyvalue_eq_dec : EqDecision pyvalue.
Proof. solve_decision. Defined.

Abbreviation doc := (gmap string pyvalue).

(** [datetime.min], the least representable date-time. *)
Definition datetime_min : pyvalue := PyDatetime 0%N.

(** ** Exceptions and results *)

(** The specification's names: Forbidden is [HTTPException 403], NotFound is
    [HTTPException 404], ValidationError is [RequestValidationError], which
    FastAPI answers with status 422. *)
Inductive exn :=
| HTTPException (status_code : Z) (detail : string)
| RequestValidationError   (* raised by FastAPI before the handler runs *)
| ValidationError          (* raised by pydantic inside a handler *)
| TypeError
| OverflowError            (* an int too large to convert to float *)
| InvalidId                (* bson.errors.InvalidId *)
| StoreError (msg : string). (* anything the database module raises *)

Inductive result (A : Type) :=
| Ok (a : A)
| Raise (e : exn).
Arguments Ok {A} a.
Arguments Raise {A} e.

Definition bind {A B} (r : result A) (k : A -> result B) : result B :=
  match r with
  | Ok a => k a
  | Raise e => Raise e
  end.

Notation "x <- r ;; k" := (bind r (fun x => k))
  (at level 100, r at next level, right associativity).

(** The status FastAPI answers with: the handler's own status on success, the
    exception's status for an [HTTPException], 422 for a request that fails
    validation, 500 for any other exception. *)
Definition http_status {A} (success : Z) (r : result A) : Z :=
  match r with
  | Ok _ => success
  | Raise (HTTPException s _) => s
  | Raise RequestValidationError => 422
  | Raise _ => 500
  end.

(** ** Python floats *)

Definition prec : Z := 53.
Definition emax : Z := 1024.

Definition float_zero : spec_float := S754_zero false.

(** [x + y] and [x - y] on floats. *)
Definition float_add (x y : spec_float) : spec_float := SFadd prec emax x y.
Definition float_sub (x y : spec_float) : spec_float := SFsub prec emax x y.

(** The float nearest to an integer, ties to even; an infinity when the
    integer is beyond the largest float. *)
Definition float_of_Z (n : Z) : spec_float := binary_normalize prec emax n 0 false.

(** [float(n)] for an [int], as [int + float] and pydantic's float field
    convert it: integers too large raise [OverflowError]. *)
Definition float_of_int (n : Z) : result spec_float :=
  match float_of_Z n with
  | S754_infinity _ => Raise OverflowError
  | x => Ok x
  end.

(** [x >= 0] and [x < 0] on a float; both are false of a NaN. *)
Definition float_ge0 (x : spec_float) : bool := SFleb float_zero x.
Definition float_negative (x : spec_float) : bool := SFltb x float_zero.

(** The order of an [int] and a [float], which Python compares by their
    exact values; [None] when the float is a NaN. *)
Definition int_float_compare (z : Z) (y : spec_float) : option comparison :=
  match y with
  | S754_nan => None
  | S754_infinity s => Some (if s then Gt else Lt)
  | S754_zero _ => Some (z ?= 0)
  | S754_finite s m e =>
      let v := if s then Zneg m else Zpos m in
      Some (match e with
            | Zneg k => (z * 2 ^ Zpos k ?= v)
            | _ => (z ?= v * 2 ^ e)
            end)
  end.

(** ** Python operators on values *)

(** [bool(v)]. *)
Definition truthy (v : pyvalue) : bool :=
  match v with
  | PyNone => false
  | PyNum n => negb (n =? 0)
  | PyFloat x => negb (SFeqb x float_zero)
  | PyStr s => negb (String.eqb s "")
  | PyDatetime _ => true
  | PyObjectId _ => true
  end.

(** [a or b]. *)
Definition py_or (a b : pyvalue) : pyvalue := if truthy a then a else b.

(** [a == b] as the handlers use it, with a string on one side: the two
    values are the same. (Between two numbers Python also equates an [int]
    and the [float] of the same value; no handler compares numbers.) *)
Definition py_eq (a b : pyvalue) : bool := bool_decide (a = b).

(** [a < b]: defined between two numbers and between two values of the same
    ordered type. *)
Definition py_lt (a b : pyvalue) : result bool :=
  match a, b with
  | PyNum x, PyNum y => Ok (x <? y)
  | PyFloat x, PyFloat y => Ok (SFltb x y)
  | PyNum x, PyFloat y =>
      Ok (match int_float_compare x y with Some Lt => true | _ => false end)
  | PyFloat x, PyNum y =>
      Ok (match int_float_compare y x with Some Gt => true | _ => false end)
  | PyStr x, PyStr y => Ok (String.ltb x y)
  | PyDatetime x, PyDatetime y => Ok (x <? y)%N
  | PyObjectId x, PyObjectId y => Ok (String.ltb x y)
  | _, _ => Raise TypeError
  end.

(** [a + b]: exact on two ints, rounded on two floats; an int beside a
    float is converted to a float first. *)
Definition py_add (a b : pyvalue) : result pyvalue :=
  match a, b with
  | PyNum x, PyNum y => Ok (PyNum (x + y))
  | PyFloat x, PyFloat y => Ok (PyFloat (float_add x y))
  | PyNum x, PyFloat y => x' <- float_of_int x ;; Ok (PyFloat (float_add x' y))
  | PyFloat x, PyNum y => y' <- float_of_int y ;; Ok (PyFloat (float_add x y'))
  | PyStr x, PyStr y => Ok (PyStr (String.append x y))
  | _, _ => Raise TypeError
  end.

(** [a - b]. *)
Definition py_sub (a b : pyvalue) : result pyvalue :=
  match a, b with
  | PyNum x, PyNum y => Ok (PyNum (x - y))
  | PyFloat x, PyFloat y => Ok (PyFloat (float_sub x y))
  | PyNum x, PyFloat y => x' <- float_of_int x ;; Ok (PyFloat (float_sub x' y))
  | PyFloat x, PyNum y => y' <- float_of_int y ;; Ok (PyFloat (float_sub x y'))
  | _, _ => Raise TypeError
  end.

(** [sum(xs)] as CPython before 3.12 computes it: the additions run left to
    right from the integer 0, each rounded as [+] rounds it. *)
Fixpoint py_sum_from (acc : pyvalue) (xs : list pyvalue) : result pyvalue :=
  match xs with
  | [] => Ok acc
  | x :: xs' => acc' <- py_add acc x ;; py_sum_from acc' xs'
  end.

Definition py_sum (xs : list pyvalue) : result pyvalue := py_sum_from (PyNum 0) xs.

(** [d.get(k)] and [d.get(k, v)]. *)
Definition dict_get (d : doc) (k : string) : pyvalue := default PyNone (d !! k).
Definition dict_get_default (d : doc) (k : string) (v : pyvalue) : pyvalue :=
  default v (d !! k).

(** [sorted(xs, key=key, reverse=True)]: the keys are computed once, only [<]
    is used on them, and records with equal keys keep their order. *)
Fixpoint insert_desc {A} (kx : pyvalue) (x : A) (s : list (pyvalue * A))
  : result (list (pyvalue * A)) :=
  match s with
  | [] => Ok [(kx, x)]
  | (ky, y) :: s' =>
      b <- py_lt kx ky ;;
      if b : bool then (r <- insert_desc kx x s' ;; Ok ((ky, y) :: r))
      else Ok ((kx, x) :: (ky, y) :: s')
  end.

Fixpoint sort_desc {A} (xs : list (pyvalue * A)) : result (list (pyvalue * A)) :=
  match xs with
  | [] => Ok []
  | (kx, x) :: xs' => s <- sort_desc xs' ;; insert_desc kx x s
  end.

Definition sorted_reverse {A} (xs : list A) (key : A -> pyvalue) : result (list A) :=
  s <- sort_desc (map (fun x => (key x, x)) xs) ;; Ok (map snd s).

(** ** Helpers *)

Definition COLLECTION : string := "transaction".

(** [os.getenv]: the process environment is a finite map. *)
Definition getenv (env : gmap string string) (k : string) : option string := env !! k.

(** [bool(x)] for [x : Optional[str]]. *)
Definition bool_of_opt_str (x : option string) : bool :=
  match x with
  | None => false
  | Some s => negb (String.eqb s "")
  end.

Definition is_admin (env : gmap string string) (token : option string) : bool :=
  let admin_token := getenv env "ADMIN_TOKEN" in
  bool_of_opt_str admin_token && bool_decide (token = admin_token).

(** ** bson.ObjectId *)

(** [Py_ISSPACE]: the characters [bytes.fromhex] skips between bytes. *)
Definition is_space (c : ascii) : bool :=
  let n := N_of_ascii c in
  ((n =? 32) || ((9 <=? n) && (n <=? 13)))%N.

(** The digit in lower case, as [binascii.hexlify] prints it. *)
Definition hex_digit (c : ascii) : option ascii :=
  let n := N_of_ascii c in
  if ((48 <=? n) && (n <=? 57))%N then Some c
  else if ((97 <=? n) && (n <=? 102))%N then Some c
  else if ((65 <=? n) && (n <=? 70))%N then Some (ascii_of_N (n + 32))
  else None.

(** [bytes.fromhex]: two adjacent hexadecimal digits per byte, white space
    allowed between bytes. The bytes are kept as lower-case digits. *)
Fixpoint fromhex (s : list ascii) : option (list ascii) :=
  match s with
  | [] => Some []
  | c :: r =>
      if is_space c then fromhex r
      else match r with
           | [] => None
           | c' :: r' =>
               match hex_digit c, hex_digit c' with
               | Some h, Some h' => cons h <$> (cons h' <$> fromhex r')
               | _, _ => None
               end
           end
  end.

(** [ObjectId(oid)] for a [str]: the string has 24 characters and
    [bytes.fromhex] accepts it; anything else raises [InvalidId]. The value is
    identified by the hexadecimal form of its bytes, which is also what
    [str] of it returns. *)
Definition ObjectId (oid : string) : result string :=
  if (String.length oid =? 24)%nat then
    match fromhex (list_ascii_of_string oid) with
    | Some h => Ok (string_of_list_ascii h)
    | None => Raise InvalidId
    end
  else Raise InvalidId.

(** ** Request bodies *)

(** A JSON value in a field of the request body; arrays and objects, which no
    field of the model accepts, are not told apart. *)
Inductive jval :=
| JNull
| JBool (b : bool)
| JNum (n : Z)
| JStr (s : string)
| JOther.

(** The body of a POST: a JSON object, or anything else (absent, not JSON, not
    an object). *)
Inductive body :=
| BodyObject (fields : gmap string jval)
| BodyMalformed.

(** ** Models *)

Record TransactionIn := {
  tanggal : N;
  penghuni : option string;
  kamar : option string;
  keterangan : string;
  jumlah : spec_float;
  tipe : string
}.

(** The [Literal] type of [tipe]: one of the two allowed strings. *)
Definition is_tipe_literal (s : string) : bool :=
  String.eqb s "pemasukan" || String.eqb s "pengeluaran".

(** [str], required. *)
Definition validate_str (v : option jval) : option string :=
  match v with
  | Some (JStr s) => Some s
  | _ => None
  end.

(** [Optional[str]] with default [None]. *)
Definition validate_opt_str (v : option jval) : option (option string) :=
  match v with
  | None | Some JNull => Some None
  | Some (JStr s) => Some (Some s)
  | Some _ => None
  end.

(** [Literal[...]], required. *)
Definition validate_tipe (v : option jval) : option string :=
  match v with
  | Some (JStr s) => if is_tipe_literal s then Some s else None
  | _ => None
  end.

(** [tx.model_dump()]. *)
Definition py_opt_str (o : option string) : pyvalue :=
  match o with
  | Some s => PyStr s
  | None => PyNone
  end.

Definition model_dump (tx : TransactionIn) : doc :=
  <["tanggal" := PyDatetime (tanggal tx)]>
  (<["penghuni" := py_opt_str (penghuni tx)]>
  (<["kamar" := py_opt_str (kamar tx)]>
  (<["keterangan" := PyStr (keterangan tx)]>
  (<["jumlah" := PyFloat (jumlah tx)]>
  (<["tipe" := PyStr (tipe tx)]> ∅))))).

(** [schemas.Transaction] built from the dumped fields: the same fields and constraints as
    [TransactionIn], checked on Python values. Only the shapes [model_dump]
    produces are accepted here. *)
Definition dumped_opt_str (v : option pyvalue) : option (option string) :=
  match v with
  | None | Some PyNone => Some None
  | Some (PyStr s) => Some (Some s)
  | Some _ => None
  end.

Definition TransactionSchema (fields : doc) : result TransactionIn :=
  match fields !! "tanggal", dumped_opt_str (fields !! "penghuni"),
        dumped_opt_str (fields !! "kamar"), fields !! "keterangan",
        fields !! "jumlah", fields !! "tipe" with
  | Some (PyDatetime t), Some p, Some k, Some (PyStr ket), Some (PyFloat j), Some (PyStr ty) =>
      if float_ge0 j && is_tipe_literal ty
      then Ok {| tanggal := t; penghuni := p; kamar := k;
                 keterangan := ket; jumlah := j; tipe := ty |}
      else Raise ValidationError
  | _, _, _, _, _, _ => Raise ValidationError
  end.

(** ** The store *)

(** A database maps a collection name to its documents, in natural order;
    the module-level [db] is [None] when no connection was made. *)
Abbreviation database := (gmap string (list doc)).

(** [db[name]]: a collection never written to is empty. *)
Definition collection (base : database) (name : string) : list doc :=
  default [] (base !! name).

(** An equality filter matches a document that has every field of the filter
    with the same value. *)
Definition matches (filt d : doc) : bool :=
  bool_decide (map_Forall (fun k v => d !! k = Some v) filt).

(** The documents left when the first match of [filt] is removed; [None] when
    nothing matches. *)
Fixpoint remove_first (filt : doc) (coll : list doc) : option (list doc) :=
  match coll with
  | [] => None
  | d :: coll' =>
      if matches filt d then Some coll'
      else cons d <$> remove_first filt coll'
  end.

(** [db[name].delete_one(filt)] on the database, for a call the store
    answers: the new database and [deleted_count]. (A call that fails, on a
    lost connection say, raises instead; the model has no such failure.) *)
Definition delete_one (base : database) (name : string) (filt : doc) : database * Z :=
  match remove_first filt (collection base name) with
  | Some coll' => (<[name := coll']> base, 1)
  | None => (base, 0)
  end.

(** ** An in-memory store *)

Module MemoryStore.

(** Modelled from the spec: the [database] module ([get_documents],
    [create_document]) is not among the source files. [find] returns the
    records that match an equality filter, capped at [limit] when one is
    given, and an empty sequence when nothing matches; [insert] persists
    one record and returns a newly generated unique identifier; both fail
    when no connection exists. *)
Definition unavailable : exn := StoreError "StoreUnavailable".

Definition get_documents (db : option database) (name : string) (filt : doc)
    (limit : option Z) : result (list doc) :=
  match db with
  | None => Raise unavailable
  | Some base =>
      let found := List.filter (matches filt) (collection base name) in
      Ok (match limit with
          | Some n => take (Z.to_nat n) found
          | None => found
          end)
  end.

(** Identifiers are 24 decimal digits, which are hexadecimal digits too. *)
Definition oid_of_nat (n : nat) : string :=
  let digits := pretty n in
  String.append (string_of_list_ascii (replicate (24 - String.length digits) "0"%char))
                digits.

Definition has_id (coll : list doc) (oid : string) : bool :=
  existsb (fun d => py_eq (dict_get d "_id") (PyObjectId oid)) coll.

(** The first identifier no document of the collection carries. *)
Definition fresh_oid (coll : list doc) : string :=
  match List.find (fun n => negb (has_id coll (oid_of_nat n))) (seq 0 (S (length coll))) with
  | Some n => oid_of_nat n
  | None => oid_of_nat (length coll)
  end.

Definition create_document (db : option database) (name : string) (tx : TransactionIn)
  : result string * option database :=
  match db with
  | None => (Raise unavailable, db)
  | Some base =>
      let coll := collection base name in
      let oid := fresh_oid coll in
      (Ok oid, Some (<[name := (coll ++ [<["_id" := PyObjectId oid]> (model_dump tx)])%list]> base))
  end.

(** Stand-ins for pydantic's conversions: an integer is read from decimal
    digits, a date-time from a non-negative number of microseconds; no
    string or boolean is taken for an amount. *)
Definition digit_value (c : ascii) : option Z :=
  let n := N_of_ascii c in
  if ((48 <=? n) && (n <=? 57))%N then Some (Z.of_N n - 48) else None.

Fixpoint digits_value (acc : Z) (s : list ascii) : option Z :=
  match s with
  | [] => Some acc
  | c :: r =>
      match digit_value c with
      | Some v => digits_value (10 * acc + v) r
      | None => None
      end
  end.

Definition int_of_str (s : string) : option Z :=
  match list_ascii_of_string s with
  | [] => None
  | "-"%char :: c :: r => Z.opp <$> digits_value 0 (c :: r)
  | r => digits_value 0 r
  end.

Definition lax_float (v : jval) : option spec_float := None.

Definition lax_datetime (v : jval) : option N :=
  match v with
  | JNum n => if 0 <=? n then Some (Z.to_N n) else None
  | _ => None
  end.

Definition str_datetime (t : N) : string := pretty t.

(** A stand-in for [repr] of a float: sign, mantissa and binary exponent. *)
Definition str_float (x : spec_float) : string :=
  match x with
  | S754_nan => "nan"
  | S754_infinity s => if s then "-inf" else "inf"
  | S754_zero s => if s then "-0.0" else "0.0"
  | S754_finite s m e =>
      String.append (if s then "-" else "")
        (String.append (pretty (Zpos m)) (String.append "p" (pretty e)))
  end.

(** The database object of the diagnostic route: it reports a fixed name,
    lists the collections it holds, and an exception prints as its message. *)
Definition db_name (base : database) : result (option string) := Ok (Some "asrama").

Definition list_collection_names (base : database) : result (list string) :=
  Ok (map fst (map_to_list base)).

Definition str_exn (e : exn) : string :=
  match e with
  | HTTPException _ detail => detail
  | StoreError msg => msg
  | RequestValidationError => "RequestValidationError"
  | ValidationError => "ValidationError"
  | TypeError => "TypeError"
  | OverflowError => "OverflowError"
  | InvalidId => "InvalidId"
  end.

End MemoryStore.

(** ** Sample data *)

Module Demo.

Definition env : gmap string string := {["ADMIN_TOKEN" := "rahasia"]}.
Definition env_unset : gmap string string := ∅.
Definition env_empty : gmap string string := {["ADMIN_TOKEN" := ""]}.

Definition oid1 : string := MemoryStore.oid_of_nat 1.
Definition oid2 : string := MemoryStore.oid_of_nat 2.
Definition oid3 : string := MemoryStore.oid_of_nat 3.

(** An income with a date, an expense without [tanggal], and a record with
    neither a date nor an amount. *)
Definition d1 : doc :=
  <["_id" := PyObjectId oid1]> (<["tanggal" := PyDatetime 5%N]>
  (<["jumlah" := PyFloat (float_of_Z 50000)]> (<["tipe" := PyStr "pemasukan"]> ∅))).
Definition d2 : doc :=
  <["_id" := PyObjectId oid2]> (<["created_at" := PyDatetime 9%N]>
  (<["jumlah" := PyFloat (float_of_Z 20000)]> (<["tipe" := PyStr "pengeluaran"]> ∅))).
Definition d3 : doc :=
  <["_id" := PyObjectId oid3]> (<["tipe" := PyStr "pemasukan"]> ∅).

Definition docs : list doc := [d1; d2; d3].
Definition base : database := {[COLLECTION := docs]}.

(** A record whose [jumlah] is text, and one whose [tanggal] is text. *)
Definition d_text_jumlah : doc :=
  <["jumlah" := PyStr "lima"]> (<["tipe" := PyStr "pemasukan"]> ∅).
Definition d_text_tanggal : doc := <["tanggal" := PyStr "2024-01-01"]> ∅.

(** Bodies of a POST: a valid one, one with a negative amount, and an
    empty object. *)
Definition fields_ok : gmap string jval :=
  <["tanggal" := JNum 1704067200]> (<["keterangan" := JStr "dues"]>
  (<["jumlah" := JNum 50000]> (<["tipe" := JStr "pemasukan"]> ∅))).
Definition fields_negative : gmap string jval := <["jumlah" := JNum (-1)]> fields_ok.
Definition fields_empty : gmap string jval := ∅.

(** A record of another [tipe] whose [jumlah] is text, and record sets with
    it and with the text-amount income. *)
Definition d_other : doc :=
  <["jumlah" := PyStr "lima"]> (<["tipe" := PyStr "lainnya"]> ∅).
Definition docs_other : list doc := [d1; d_other; d2].
Definition docs_text_jumlah : list doc := [d1; d_text_jumlah].
Definition docs_text_tanggal : list doc := [d1; d_text_tanggal].

(** Records whose amounts are ints, as a writer other than this program may
    store them. *)
Definition d_int1 : doc :=
  <["jumlah" := PyNum 7]> (<["tipe" := PyStr "pemasukan"]> ∅).
Definition d_int2 : doc :=
  <["jumlah" := PyNum 5]> (<["tipe" := PyStr "pemasukan"]> ∅).
Definition docs_int : list doc := [d_int1; d3; d_int2].

(** Two incomes of 2^53 and 1.0: their float sum is 2^53. *)
Definition d_big : doc :=
  <["jumlah" := PyFloat (float_of_Z (2 ^ 53))]> (<["tipe" := PyStr "pemasukan"]> ∅).
Definition d_one : doc :=
  <["jumlah" := PyFloat (float_of_Z 1)]> (<["tipe" := PyStr "pemasukan"]> ∅).
Definition docs_big : list doc := [d_big; d_one].

(** A body whose amount is an integer beyond the largest float. *)
Definition fields_huge : gmap string jval := <["jumlah" := JNum (10 ^ 400)]> fields_ok.

(** A body with a field the model does not have. *)
Definition fields_extra : gmap string jval := <["catatan" := JStr "lunas"]> fields_ok.

End Demo.

(** ** Routes *)

Section Routes.

(** What the routes use from outside [main.py] and [schemas.py]: the
    rendering of a date-time and of a float by [str], pydantic's lax
    conversions, the interpreter's built-in [sum], and the two functions of
    the [database] module. ([sum] adds left to right, which is [py_sum];
    from CPython 3.12 on it also compensates the rounding of float
    additions, so what it returns on floats depends on the interpreter.) *)
Variable str_datetime : N -> string.
Variable str_float : spec_float -> string.
Variable int_of_str : string -> option Z.
Variable lax_float : jval -> option spec_float.
Variable lax_datetime : jval -> option N.
Variable builtin_sum : list pyvalue -> result pyvalue.
Variable get_documents :
  option database -> string -> doc -> option Z -> result (list doc).
Variable create_document :
  option database -> string -> TransactionIn -> result string * option database.

(** [str(v)]. *)
Definition py_str (v : pyvalue) : string :=
  match v with
  | PyNone => "None"
  | PyNum n => pretty n
  | PyFloat x => str_float x
  | PyStr s => s
  | PyDatetime t => str_datetime t
  | PyObjectId hex => hex
  end.

(** *** Validation of [TransactionIn] *)

(** [datetime], required: a string, a number or a boolean goes through
    pydantic's conversion, nothing else is accepted. *)
Definition validate_datetime (v : option jval) : option N :=
  match v with
  | Some (JStr s) => lax_datetime (JStr s)
  | Some (JNum n) => lax_datetime (JNum n)
  | Some (JBool b) => lax_datetime (JBool b)
  | Some JNull | Some JOther | None => None
  end.

(** [float], required: an integer is converted to the nearest float and
    refused when it is beyond the largest one, a string or a boolean goes
    through pydantic's conversion, nothing else is accepted. *)
Definition validate_float (v : option jval) : option spec_float :=
  match v with
  | Some (JNum n) =>
      match float_of_int n with
      | Ok x => Some x
      | Raise _ => None
      end
  | Some (JStr s) => lax_float (JStr s)
  | Some (JBool b) => lax_float (JBool b)
  | Some JNull | Some JOther | None => None
  end.

(** [jumlah: float = Field(..., ge=0)]. *)
Definition validate_jumlah (v : option jval) : option spec_float :=
  match validate_float v with
  | Some x => if float_ge0 x then Some x else None
  | None => None
  end.

Definition validate_TransactionIn (b : body) : result TransactionIn :=
  match b with
  | BodyMalformed => Raise RequestValidationError
  | BodyObject f =>
      match validate_datetime (f !! "tanggal"), validate_opt_str (f !! "penghuni"),
            validate_opt_str (f !! "kamar"), validate_str (f !! "keterangan"),
            validate_jumlah (f !! "jumlah"), validate_tipe (f !! "tipe") with
      | Some t, Some p, Some k, Some ket, Some j, Some ty =>
          Ok {| tanggal := t; penghuni := p; kamar := k;
                keterangan := ket; jumlah := j; tipe := ty |}
      | _, _, _, _, _, _ => Raise RequestValidationError
      end
  end.

(** *** GET /api/transactions *)

(** [limit: int = Query(100, ge=1, le=500)]. *)
Definition validate_limit (raw : option string) : result Z :=
  match raw with
  | None => Ok 100
  | Some s =>
      match int_of_str s with
      | Some n => if (1 <=? n) && (n <=? 500) then Ok n else Raise RequestValidationError
      | None => Raise RequestValidationError
      end
  end.

(** The pattern [^(pemasukan|pengeluaran)$]; pydantic compiles it with an
    engine in which [$] matches at the end of the text only. *)
Definition tipe_pattern (s : string) : bool :=
  String.eqb s "pemasukan" || String.eqb s "pengeluaran".

(** [tipe: Optional[str] = Query(None, pattern=...)]. *)
Definition validate_tipe_query (raw : option string) : result (option string) :=
  match raw with
  | None => Ok None
  | Some s => if tipe_pattern s then Ok (Some s) else Raise RequestValidationError
  end.

Definition sort_key (d : doc) : pyvalue :=
  py_or (py_or (dict_get d "tanggal") (dict_get d "created_at")) datetime_min.

(** The body of the loop: [d["id"] = str(d.get("_id")); d.pop("_id", None)]. *)
Definition normalize (d : doc) : doc :=
  delete "_id" (<["id" := PyStr (py_str (dict_get d "_id"))]> d).

(** The response is [{"items": result}]; the model returns [result]. *)
(** [filt = {}; if tipe: filt["tipe"] = tipe]. *)
Definition list_filter (tipe : option string) : doc :=
  match tipe with
  | Some t => if bool_of_opt_str tipe then <["tipe" := PyStr t]> ∅ else ∅
  | None => ∅
  end.

Definition list_transactions (db : option database) (limit : Z) (tipe : option string)
  : result (list doc) :=
  let filt := list_filter tipe in
  docs <- get_documents db COLLECTION filt (Some limit) ;;
  docs_sorted <- sorted_reverse docs sort_key ;;
  Ok (map normalize docs_sorted).

Definition GET_transactions (db : option database) (limit tipe : option string)
  : result (list doc) :=
  limit' <- validate_limit limit ;;
  tipe' <- validate_tipe_query tipe ;;
  list_transactions db limit' tipe'.

(** *** GET /api/stats *)

Record stats_out := { pemasukan : pyvalue; pengeluaran : pyvalue; saldo : pyvalue }.

(** [sum(d.get("jumlah", 0) for d in docs if d.get("tipe") == t)]. *)
(** The amounts summed for a [tipe], in the order of the records: the
    generator [d.get("jumlah", 0) for d in docs if d.get("tipe") == t]. *)
Definition amounts (t : string) (docs : list doc) : list pyvalue :=
  map (fun d => dict_get_default d "jumlah" (PyNum 0))
      (List.filter (fun d => py_eq (dict_get d "tipe") (PyStr t)) docs).

Definition sum_jumlah (docs : list doc) (t : string) : result pyvalue :=
  builtin_sum (amounts t docs).

Definition stats (db : option database) : result stats_out :=
  docs <- get_documents db COLLECTION ∅ None ;;
  p <- sum_jumlah docs "pemasukan" ;;
  q <- sum_jumlah docs "pengeluaran" ;;
  s <- py_sub p q ;;
  Ok {| pemasukan := p; pengeluaran := q; saldo := s |}.

Definition GET_stats (db : option database) : result stats_out := stats db.

(** *** POST /api/transactions *)

Definition forbidden : exn := HTTPException 403 "Hanya admin yang boleh mengedit".
Definition not_found : exn := HTTPException 404 "Transaksi tidak ditemukan".

Definition create_transaction (env : gmap string string) (db : option database)
    (tx : TransactionIn) (x_admin_token : option string)
  : result (gmap string string) * option database :=
  if negb (is_admin env x_admin_token) then (Raise forbidden, db)
  else
    match TransactionSchema (model_dump tx) with
    | Raise e => (Raise e, db)
    | Ok _ =>
        let '(r, db') := create_document db COLLECTION tx in
        (new_id <- r ;;
         Ok (<["id" := new_id]> {["message" := "Transaksi berhasil ditambahkan"]}),
         db')
    end.

(** FastAPI builds [tx] from the body before it calls the handler; a body
    that fails validation is answered without the handler running. *)
Definition POST_transactions (env : gmap string string) (db : option database)
    (b : body) (x_admin_token : option string)
  : result (gmap string string) * option database :=
  match validate_TransactionIn b with
  | Raise e => (Raise e, db)
  | Ok tx => create_transaction env db tx x_admin_token
  end.

(** *** DELETE /api/transactions/{tx_id} *)

Definition delete_transaction (env : gmap string string) (db : option database)
    (tx_id : string) (x_admin_token : option string)
  : result (gmap string string) * option database :=
  if negb (is_admin env x_admin_token) then (Raise forbidden, db)
  else
    match db with
    | None => (Raise (HTTPException 500 "Database tidak tersedia"), db)
    | Some base =>
        match ObjectId tx_id with
        | Raise e => (Raise e, db)
        | Ok oid =>
            let '(base', deleted_count) :=
              delete_one base COLLECTION {["_id" := PyObjectId oid]} in
            if deleted_count =? 0
            then (Raise not_found, Some base')
            else (Ok {["message" := "Transaksi dihapus"]}, Some base')
        end
    end.

Definition DELETE_transactions := delete_transaction.

(** *** GET / *)

Definition read_root : gmap string string :=
  {["message" := "Backend Keuangan Asrama aktif"]}.

(** *** GET /test *)

(** What the diagnostic route asks of the database object: its [name]
    attribute ([None] when [hasattr] finds none) and the names of its
    collections; either may raise. [str_exn] is [str] of an exception. *)
Variable db_name : database -> result (option string).
Variable list_collection_names : database -> result (list string).
Variable str_exn : exn -> string.

(** A value of the diagnostic response: [None], a string, or a list of
    strings. *)
Inductive rval :=
| RNone
| RStr (s : string)
| RList (l : list string).

(** ["✅ Set" if os.getenv(k) else "❌ Not Set"]. *)
Definition set_or_not (v : option string) : string :=
  if bool_of_opt_str v then "✅ Set" else "❌ Not Set".

(** [s[:50]]; a character is a byte here, which is exact for ASCII text. *)
Definition first50 (s : string) : string := String.substring 0 50 s.

Definition test_database (env : gmap string string) (db : option database)
  : gmap string rval :=
  let response : gmap string rval :=
    <["backend" := RStr "✅ Running"]>
    (<["database" := RStr "❌ Not Available"]>
    (<["database_url" := RNone]>
    (<["database_name" := RNone]>
    (<["connection_status" := RStr "Not Connected"]>
    (<["collections" := RList []]> ∅))))) in
  let response :=
    match db with
    | Some base =>
        let response := <["database" := RStr "✅ Available"]> response in
        let response :=
          <["database_url" := RStr (set_or_not (getenv env "DATABASE_URL"))]> response in
        match db_name base with
        | Raise e =>
            <["database" := RStr (String.append "❌ Error: " (first50 (str_exn e)))]> response
        | Ok name =>
            let response :=
              <["database_name" := RStr (default "✅ Connected" name)]> response in
            let response := <["connection_status" := RStr "Connected"]> response in
            match list_collection_names base with
            | Ok collections =>
                <["database" := RStr "✅ Connected & Working"]>
                (<["collections" := RList (take 10 collections)]> response)
            | Raise e =>
                <["database" :=
                    RStr (String.append "⚠️ Connected but Error: " (first50 (str_exn e)))]>
                response
            end
        end
    | None => <["database" := RStr "⚠️ Available but not initialized"]> response
    end in
  let response :=
    <["database_url" := RStr (set_or_not (getenv env "DATABASE_URL"))]> response in
  <["database_name" := RStr (set_or_not (getenv env "DATABASE_NAME"))]> response.

(** ** Vocabulary of the further properties *)

(** A record the stats endpoint counts: its [tipe] is one of the two
    literals. *)
Definition counted (d : doc) : bool :=
  bool_decide (d !! "tipe" = Some (PyStr "pemasukan")) ||
  bool_decide (d !! "tipe" = Some (PyStr "pengeluaran")).

(** A stored ObjectId as [str] prints it: 24 lower-case hexadecimal digits. *)
Definition is_lower_hex (c : ascii) : bool :=
  let n := N_of_ascii c in
  (((48 <=? n) && (n <=? 57)) || ((97 <=? n) && (n <=? 102)))%N.

Definition oid_wf (hex : string) : bool :=
  (String.length hex =? 24)%nat && forallb is_lower_hex (list_ascii_of_string hex).

(** Two sort keys that [<] can compare: both numbers, both strings, both
    date-times or both ObjectIds. *)
Definition same_kind (a b : pyvalue) : bool :=
  match a, b with
  | PyNum _, PyNum _ | PyNum _, PyFloat _ | PyFloat _, PyNum _ | PyFloat _, PyFloat _
  | PyStr _, PyStr _
  | PyDatetime _, PyDatetime _ | PyObjectId _, PyObjectId _ => true
  | _, _ => false
  end.

(** The six fields of [TransactionIn]. *)
Definition model_fields : list string :=
  ["tanggal"; "penghuni"; "kamar"; "keterangan"; "jumlah"; "tipe"].

(** ** The specification's vocabulary *)

(** What is assumed of the interpreter's [sum] where a property needs it:
    that it adds left to right without compensation (CPython before 3.12),
    or only that it is exact on ints, or only that the empty sum is 0. *)
Definition sums_left_to_right : Prop := forall xs, builtin_sum xs = py_sum xs.

Definition sum_exact_on_ints : Prop :=
  forall zs, builtin_sum (map PyNum zs) = Ok (PyNum (foldr Z.add 0 zs)).

Definition empty_sum_is_zero : Prop := builtin_sum [] = Ok (PyNum 0).

(** A number: an int or a float. *)
Inductive number :=
| NInt (z : Z)
| NFloat (x : spec_float).

Definition py_num (n : number) : pyvalue :=
  match n with
  | NInt z => PyNum z
  | NFloat x => PyFloat x
  end.

(** The sum and the difference of two numbers: exact on ints, rounded to
    the nearest float otherwise, and undefined ([OverflowError]) when an int
    that meets a float is beyond the largest float. *)
Definition num_add (a b : number) : result number :=
  match a, b with
  | NInt x, NInt y => Ok (NInt (x + y))
  | NFloat x, NFloat y => Ok (NFloat (float_add x y))
  | NInt x, NFloat y => x' <- float_of_int x ;; Ok (NFloat (float_add x' y))
  | NFloat x, NInt y => y' <- float_of_int y ;; Ok (NFloat (float_add x y'))
  end.

Definition num_sub (a b : number) : result number :=
  match a, b with
  | NInt x, NInt y => Ok (NInt (x - y))
  | NFloat x, NFloat y => Ok (NFloat (float_sub x y))
  | NInt x, NFloat y => x' <- float_of_int x ;; Ok (NFloat (float_sub x' y))
  | NFloat x, NInt y => y' <- float_of_int y ;; Ok (NFloat (float_sub x y'))
  end.

(** The amount a record contributes to a total: its [jumlah], and the int 0
    when it has none. *)
Definition amount (d : doc) : number :=
  match d !! "jumlah" with
  | Some (PyNum n) => NInt n
  | Some (PyFloat x) => NFloat x
  | _ => NInt 0
  end.

Definition has_tipe (t : string) (d : doc) : bool :=
  bool_decide (d !! "tipe" = Some (PyStr t)).

(** The sum of [jumlah] over the records whose [tipe] is [t], taken in the
    order of the records from the int 0. *)
Fixpoint total_from (acc : number) (t : string) (docs : list doc) : result number :=
  match docs with
  | [] => Ok acc
  | d :: docs' =>
      if has_tipe t d
      then (acc' <- num_add acc (amount d) ;; total_from acc' t docs')
      else total_from acc t docs'
  end.

Definition total (t : string) (docs : list doc) : result number :=
  total_from (NInt 0) t docs.

(** The same sum when every amount is a float or missing, as for records
    this program created: the int 0 when no record of that [tipe] has an
    amount, and otherwise the float additions [((0.0 + a1) + a2) + ...], a
    missing amount counting as 0.0. *)
Definition float_amount (d : doc) : spec_float :=
  match d !! "jumlah" with
  | Some (PyFloat x) => x
  | _ => float_zero
  end.

Definition has_float_amount (d : doc) : bool :=
  match d !! "jumlah" with
  | Some (PyFloat _) => true
  | _ => false
  end.

Definition float_total (t : string) (docs : list doc) : number :=
  let counted := List.filter (has_tipe t) docs in
  if existsb has_float_amount counted
  then NFloat (fold_left float_add (map float_amount counted) float_zero)
  else NInt 0.
(** The same sum when every amount is an int or missing: the exact sum. *)
Definition int_amount (d : doc) : Z :=
  match d !! "jumlah" with
  | Some (PyNum n) => n
  | _ => 0
  end.

Definition int_amounts (t : string) (docs : list doc) : list Z :=
  map int_amount (List.filter (has_tipe t) docs).

Fixpoint int_total (t : string) (docs : list doc) : Z :=
  match docs with
  | [] => 0
  | d :: docs' => (if has_tipe t d then int_amount d else 0) + int_total t docs'
  end.

(** A record's [jumlah] is a number, int or float, when it is there. *)
Definition jumlah_typed (d : doc) : Prop :=
  d !! "jumlah" = None \/
  (exists n, d !! "jumlah" = Some (PyNum n)) \/
  (exists x, d !! "jumlah" = Some (PyFloat x)).

Definition jumlah_float (d : doc) : Prop :=
  d !! "jumlah" = None \/ exists x, d !! "jumlah" = Some (PyFloat x).

Definition jumlah_int (d : doc) : Prop :=
  d !! "jumlah" = None \/ exists n, d !! "jumlah" = Some (PyNum n).

(** A date field is a date-time when it is there and not null. *)
Definition date_field (d : doc) (k : string) : Prop :=
  d !! k = None \/ d !! k = Some PyNone \/ exists t, d !! k = Some (PyDatetime t).

Definition dates_typed (d : doc) : Prop :=
  date_field d "tanggal" /\ date_field d "created_at".

(** The sort key in the specification's words: [tanggal], else
    [created_at], else the least date-time. *)
Definition key_of (d : doc) : N :=
  match d !! "tanggal" with
  | Some (PyDatetime t) => t
  | _ => match d !! "created_at" with
         | Some (PyDatetime t) => t
         | _ => 0%N
         end
  end.

(** The date-time a key stands for, and the order "not later than" on
    decorated records. *)
Definition dt_of (v : pyvalue) : N :=
  match v with
  | PyDatetime t => t
  | _ => 0%N
  end.

Definition is_dt (v : pyvalue) : Prop := exists t, v = PyDatetime t.

Definition key_ge {A} (p q : pyvalue * A) : Prop := (dt_of q.1 <= dt_of p.1)%N.

(** Mongo keeps [_id] unique within a collection. *)
Definition ids_unique (coll : list doc) : Prop :=
  NoDup (map (fun d => dict_get d "_id") coll).

(** The header does not carry the secret: there is no secret, or the header
    is absent, or it differs from the secret. *)
Definition token_invalid (env : gmap string string) (token : option string) : Prop :=
  getenv env "ADMIN_TOKEN" = None \/ token = None \/ token <> getenv env "ADMIN_TOKEN".

(** The required fields of a transaction. *)
Definition required_fields : list string := ["tanggal"; "keterangan"; "jumlah"; "tipe"].

(** A submitted record that must be refused: a negative amount, a [tipe]
    that is neither literal, a required field that is missing, or a
    required field whose value the field's type does not accept. *)
Inductive invalid_record (f : gmap string jval) : Prop :=
| negative_jumlah x :
    validate_float (f !! "jumlah") = Some x -> float_negative x = true -> invalid_record f
| tipe_not_literal :
    f !! "tipe" <> Some (JStr "pemasukan") -> f !! "tipe" <> Some (JStr "pengeluaran") ->
    invalid_record f
| missing_field k :
    k ∈ required_fields -> f !! k = None -> invalid_record f
| ill_typed_tanggal :
    validate_datetime (f !! "tanggal") = None -> invalid_record f
| ill_typed_keterangan :
    (forall s, f !! "keterangan" <> Some (JStr s)) -> invalid_record f
| ill_typed_jumlah :
    validate_float (f !! "jumlah") = None -> invalid_record f.

(** ** Sums *)

Lemma py_add_num a b : py_add (py_num a) (py_num b) = (r <- num_add a b ;; Ok (py_num r)).
Proof. destruct a, b; simpl; try done; by destruct (float_of_int _). Qed.

Lemma py_sub_num a b : py_sub (py_num a) (py_num b) = (r <- num_sub a b ;; Ok (py_num r)).
Proof. destruct a, b; simpl; try done; by destruct (float_of_int _). Qed.

Lemma py_eq_has_tipe t (d : doc) : py_eq (dict_get d "tipe") (PyStr t) = has_tipe t d.
Proof.
  unfold py_eq, dict_get, has_tipe.
  destruct (d !! "tipe") as [v|]; simpl; repeat case_bool_decide; congruence.
Qed.

Lemma amount_typed d :
  jumlah_typed d -> dict_get_default d "jumlah" (PyNum 0) = py_num (amount d).
Proof.
  unfold dict_get_default, amount.
  intros [-> | [[n ->] | [x ->]]]; done.
Qed.

Lemma sum_from_total t docs : forall acc,
  Forall (fun d => has_tipe t d = true -> jumlah_typed d) docs ->
  py_sum_from (py_num acc)
    (map (fun d => dict_get_default d "jumlah" (PyNum 0))
         (List.filter (fun d => py_eq (dict_get d "tipe") (PyStr t)) docs))
  = (r <- total_from acc t docs ;; Ok (py_num r)).
Proof.
  induction docs as [|d docs IH]; intros acc Hty; simpl; [done |].
  inversion Hty as [|? ? Hd Hrest]; subst.
  rewrite py_eq_has_tipe. destruct (has_tipe t d); simpl.
  - rewrite (amount_typed d (Hd eq_refl)), py_add_num.
    destruct (num_add acc (amount d)) as [acc'|e]; simpl; [| done].
    by apply IH.
  - by apply IH.
Qed.

Lemma sum_jumlah_total t docs :
  sums_left_to_right ->
  Forall (fun d => has_tipe t d = true -> jumlah_typed d) docs ->
  sum_jumlah docs t = (r <- total t docs ;; Ok (py_num r)).
Proof.
  intros Hsum Hty. unfold sum_jumlah, total. rewrite Hsum. unfold py_sum.
  by rewrite <- (sum_from_total t docs (NInt 0) Hty).
Qed.

Lemma amounts_int t docs :
  Forall jumlah_int docs -> amounts t docs = map PyNum (int_amounts t docs).
Proof.
  unfold amounts, int_amounts.
  induction docs as [|d docs IH]; intros Hty; simpl; [done |].
  inversion Hty as [|? ? Hd Hrest]; subst.
  rewrite py_eq_has_tipe. destruct (has_tipe t d); simpl; [| by apply IH].
  rewrite IH by done. f_equal.
  unfold dict_get_default, int_amount. by destruct Hd as [-> | [n ->]].
Qed.

Lemma int_amounts_total t docs : foldr Z.add 0 (int_amounts t docs) = int_total t docs.
Proof.
  unfold int_amounts.
  induction docs as [|d docs IH]; simpl; [done |].
  destruct (has_tipe t d); simpl; lia.
Qed.

Lemma py_sum_from_ints zs : forall a,
  py_sum_from (PyNum a) (map PyNum zs) = Ok (PyNum (a + foldr Z.add 0 zs)).
Proof.
  induction zs as [|z zs IH]; intros a; simpl.
  - f_equal. f_equal. lia.
  - rewrite IH. f_equal. f_equal. lia.
Qed.

(** The left-to-right sum is exact on ints and 0 on nothing. *)
Lemma left_to_right_exact_on_ints : sums_left_to_right -> sum_exact_on_ints.
Proof.
  intros Hsum zs. rewrite Hsum. unfold py_sum. by rewrite py_sum_from_ints.
Qed.

Lemma exact_on_ints_empty : sum_exact_on_ints -> empty_sum_is_zero.
Proof. intros Hint. exact (Hint []). Qed.

Lemma total_from_float_acc t docs : forall a,
  Forall jumlah_float docs ->
  total_from (NFloat a) t docs
  = Ok (NFloat (fold_left float_add (map float_amount (List.filter (has_tipe t) docs)) a)).
Proof.
  induction docs as [|d docs IH]; intros a Hty; simpl; [done |].
  inversion Hty as [|? ? Hd Hrest]; subst.
  destruct (has_tipe t d); simpl; [| by apply IH].
  unfold amount, float_amount.
  destruct Hd as [-> | [x ->]]; simpl; by rewrite IH.
Qed.

Lemma total_float t docs :
  Forall jumlah_float docs -> total t docs = Ok (float_total t docs).
Proof.
  unfold total, float_total.
  induction docs as [|d docs IH]; intros Hty; simpl; [done |].
  inversion Hty as [|? ? Hd Hrest]; subst.
  destruct (has_tipe t d); simpl; [| by apply IH].
  unfold amount, float_amount, has_float_amount.
  destruct Hd as [-> | [x ->]]; simpl.
  - rewrite Z.add_0_l, (IH Hrest).
    by destruct (existsb _ (List.filter (has_tipe t) docs)).
  - by rewrite total_from_float_acc.
Qed.

Lemma total_from_int t docs : forall a,
  Forall jumlah_int docs ->
  total_from (NInt a) t docs = Ok (NInt (a + int_total t docs)).
Proof.
  induction docs as [|d docs IH]; intros a Hty; simpl.
  - f_equal. f_equal. lia.
  - inversion Hty as [|? ? Hd Hrest]; subst.
    destruct (has_tipe t d); simpl.
    + unfold amount, int_amount.
      destruct Hd as [-> | [n ->]]; simpl; rewrite IH by done; f_equal; f_equal; lia.
    + by rewrite IH.
Qed.

(** A total over records whose amounts are floats or missing is the int 0
    or a float, and the difference of two such totals is defined. *)
Lemma float_total_sub t u docs :
  exists s, num_sub (float_total t docs) (float_total u docs) = Ok s.
Proof.
  unfold float_total.
  destruct (existsb _ (List.filter (has_tipe t) docs));
    destruct (existsb _ (List.filter (has_tipe u) docs)); simpl; by eexists.
Qed.

(** ** Sorting *)

Lemma insert_desc_dt {A} kx (x : A) s :
  is_dt kx -> Forall (fun p => is_dt p.1) s -> StronglySorted key_ge s ->
  exists r, insert_desc kx x s = Ok r /\ r ≡ₚ (kx, x) :: s /\ StronglySorted key_ge r.
Proof.
  intros [tx ->]. induction s as [|[ky y] s IH]; intros Hdt Hs.
  - exists [(PyDatetime tx, x)]. repeat split; [done | repeat constructor].
  - inversion Hdt as [|? ? [ty Hky] Hdt']; subst. simpl in Hky. subst ky.
    inversion Hs as [|? ? Hs' Hall]; subst.
    simpl. destruct (tx <? ty)%N eqn:Hlt; simpl.
    + destruct (IH Hdt' Hs') as (r & -> & Hperm & Hr). simpl.
      exists ((PyDatetime ty, y) :: r). split; [done | split].
      * rewrite Hperm. apply perm_swap.
      * constructor; [done |]. rewrite Hperm. constructor; [| done].
        unfold key_ge; simpl. apply N.ltb_lt in Hlt. lia.
    + exists ((PyDatetime tx, x) :: (PyDatetime ty, y) :: s).
      split; [done | split; [done |]].
      apply N.ltb_ge in Hlt.
      constructor; [done |]. constructor.
      * unfold key_ge; simpl. lia.
      * eapply Forall_impl; [exact Hall |].
        intros q Hq. unfold key_ge in *; simpl in *. lia.
Qed.

Lemma sort_desc_dt {A} (xs : list (pyvalue * A)) :
  Forall (fun p => is_dt p.1) xs ->
  exists s, sort_desc xs = Ok s /\ s ≡ₚ xs /\ StronglySorted key_ge s.
Proof.
  induction xs as [|[kx x] xs IH]; intros Hdt.
  - exists []. repeat split; [done | constructor].
  - inversion Hdt as [|? ? Hkx Hdt']; subst. simpl in Hkx.
    destruct (IH Hdt') as (s & Hsort & Hperm & Hs). simpl. rewrite Hsort. simpl.
    destruct (insert_desc_dt kx x s Hkx) as (r & Hins & Hperm' & Hr).
    + rewrite Hperm. exact Hdt'.
    + exact Hs.
    + exists r. split; [done | split; [| done]].
      rewrite Hperm', Hperm. done.
Qed.

Lemma undecorate_sorted {A} (key : A -> pyvalue) (s : list (pyvalue * A)) :
  Forall (fun p => p.1 = key p.2) s -> StronglySorted key_ge s ->
  StronglySorted (fun a b => (dt_of (key b) <= dt_of (key a))%N) (map snd s).
Proof.
  intros Hkey Hs. induction Hs as [|p s Hs IH Hall]; simpl; [constructor |].
  inversion Hkey as [|? ? Hp Hkey']; subst.
  constructor; [by apply IH |].
  apply Forall_fmap. rewrite Forall_forall in Hall, Hkey' |- *.
  intros q Hq. simpl. specialize (Hall q Hq). specialize (Hkey' q Hq).
  unfold key_ge in Hall. rewrite <- Hp, <- Hkey'. exact Hall.
Qed.

Lemma sorted_reverse_dt {A} (xs : list A) (key : A -> pyvalue) :
  Forall (fun x => is_dt (key x)) xs ->
  exists ys, sorted_reverse xs key = Ok ys /\ ys ≡ₚ xs /\
    StronglySorted (fun a b => (dt_of (key b) <= dt_of (key a))%N) ys.
Proof.
  intros Hdt. unfold sorted_reverse.
  destruct (sort_desc_dt (map (fun x => (key x, x)) xs)) as (s & -> & Hperm & Hs).
  { apply Forall_fmap. eapply Forall_impl; [exact Hdt | done]. }
  simpl. exists (map snd s). split; [done | split].
  - change (snd <$> s ≡ₚ xs). rewrite Hperm.
    clear. induction xs as [|x xs IH]; simpl; [done | by f_equiv].
  - apply undecorate_sorted; [| done].
    rewrite Hperm. apply Forall_fmap, Forall_true. done.
Qed.

Lemma sorted_lookup {A} (R : A -> A -> Prop) (l : list A) :
  StronglySorted R l ->
  forall (i j : nat) a b, (i < j)%nat -> l !! i = Some a -> l !! j = Some b -> R a b.
Proof.
  induction 1 as [|x l Hl IH Hall]; intros i j a b Hij Hi Hj; [done |].
  destruct j as [|j]; [lia |]. simpl in Hj.
  destruct i as [|i]; simpl in Hi.
  - injection Hi as <-. rewrite Forall_forall in Hall.
    apply Hall. by eapply list_elem_of_lookup_2.
  - apply (IH i j); [lia | done | done].
Qed.

(** ** The sort key *)

Lemma sort_key_typed d : dates_typed d -> sort_key d = PyDatetime (key_of d).
Proof.
  intros [Ht Hc]. unfold sort_key, key_of, dict_get, datetime_min, py_or.
  destruct Ht as [-> | [-> | [t ->]]]; simpl; [| | done];
    destruct Hc as [-> | [-> | [c ->]]]; done.
Qed.

Lemma sort_key_normalize d : sort_key (normalize d) = sort_key d.
Proof.
  unfold sort_key, normalize, dict_get.
  rewrite !lookup_delete_ne, !lookup_insert_ne by done. done.
Qed.

Lemma key_of_normalize d : key_of (normalize d) = key_of d.
Proof.
  unfold key_of, normalize.
  rewrite !lookup_delete_ne, !lookup_insert_ne by done. done.
Qed.

(** ** The admin gate *)

Lemma is_admin_unset env tok : getenv env "ADMIN_TOKEN" = None -> is_admin env tok = false.
Proof. intros H. unfold is_admin. rewrite H. done. Qed.

Lemma is_admin_empty env tok : getenv env "ADMIN_TOKEN" = Some "" -> is_admin env tok = false.
Proof. intros H. unfold is_admin. rewrite H. done. Qed.

Lemma is_admin_invalid env tok : token_invalid env tok -> is_admin env tok = false.
Proof.
  intros [Hunset | [-> | Hne]].
  - by apply is_admin_unset.
  - unfold is_admin. destruct (getenv env "ADMIN_TOKEN") as [a|]; [| done].
    rewrite bool_decide_eq_false_2 by done. apply andb_false_r.
  - unfold is_admin. rewrite bool_decide_eq_false_2 by done. apply andb_false_r.
Qed.

Lemma is_admin_true env tok :
  is_admin env tok = true <->
  exists a, a <> "" /\ getenv env "ADMIN_TOKEN" = Some a /\ tok = Some a.
Proof.
  unfold is_admin. split.
  - intros H. apply andb_true_iff in H as [Hb Heq].
    apply bool_decide_eq_true_1 in Heq.
    destruct (getenv env "ADMIN_TOKEN") as [a|]; [| done].
    exists a. split; [| done]. intros ->. done.
  - intros (a & Ha & -> & ->). simpl.
    rewrite bool_decide_eq_true_2 by done.
    destruct (String.eqb_spec a ""); done.
Qed.

Lemma delete_forbidden env db tx_id tok :
  is_admin env tok = false ->
  DELETE_transactions env db tx_id tok = (Raise forbidden, db).
Proof. intros H. unfold DELETE_transactions, delete_transaction. by rewrite H. Qed.

Lemma create_forbidden env db tx tok :
  is_admin env tok = false ->
  create_transaction env db tx tok = (Raise forbidden, db).
Proof. intros H. unfold create_transaction. by rewrite H. Qed.

(** ** Validation of the body *)

Lemma validate_raises b e :
  validate_TransactionIn b = Raise e -> e = RequestValidationError.
Proof.
  unfold validate_TransactionIn. destruct b as [f|]; [| congruence].
  repeat (match goal with |- context [match ?o with _ => _ end] => destruct o end);
    congruence.
Qed.

Lemma post_invalid env db b tok e :
  validate_TransactionIn b = Raise e ->
  POST_transactions env db b tok = (Raise RequestValidationError, db).
Proof.
  intros H. unfold POST_transactions. rewrite H.
  by rewrite (validate_raises _ _ H).
Qed.

Lemma post_valid env db b tok tx :
  validate_TransactionIn b = Ok tx ->
  POST_transactions env db b tok = create_transaction env db tx tok.
Proof. intros H. unfold POST_transactions. by rewrite H. Qed.

Lemma validate_ok b tx :
  validate_TransactionIn b = Ok tx ->
  exists f, b = BodyObject f /\
    validate_datetime (f !! "tanggal") = Some (tanggal tx) /\
    validate_opt_str (f !! "penghuni") = Some (penghuni tx) /\
    validate_opt_str (f !! "kamar") = Some (kamar tx) /\
    validate_str (f !! "keterangan") = Some (keterangan tx) /\
    validate_jumlah (f !! "jumlah") = Some (jumlah tx) /\
    validate_tipe (f !! "tipe") = Some (tipe tx).
Proof.
  unfold validate_TransactionIn. destruct b as [f|]; [| congruence].
  destruct (validate_datetime (f !! "tanggal")) as [t|] eqn:Ht; [| congruence].
  destruct (validate_opt_str (f !! "penghuni")) as [p|] eqn:Hp; [| congruence].
  destruct (validate_opt_str (f !! "kamar")) as [k|] eqn:Hk; [| congruence].
  destruct (validate_str (f !! "keterangan")) as [ket|] eqn:Hket; [| congruence].
  destruct (validate_jumlah (f !! "jumlah")) as [j|] eqn:Hj; [| congruence].
  destruct (validate_tipe (f !! "tipe")) as [ty|] eqn:Hty; [| congruence].
  intros [= <-]. exists f. simpl. done.
Qed.

Lemma float_negative_not_ge0 x : float_negative x = true -> float_ge0 x = false.
Proof. by destruct x as [[|]|[|]| |[|] m e]. Qed.

Lemma validate_jumlah_ge v x :
  validate_jumlah v = Some x -> validate_float v = Some x /\ float_ge0 x = true.
Proof.
  unfold validate_jumlah. destruct (validate_float v) as [y|]; [| done].
  destruct (float_ge0 y) eqn:Hle; [| done]. by intros [= ->].
Qed.

Lemma validate_tipe_literal v ty :
  validate_tipe v = Some ty -> v = Some (JStr ty) /\ is_tipe_literal ty = true.
Proof.
  unfold validate_tipe. destruct v as [[| | |s|]|]; try done.
  destruct (is_tipe_literal s) eqn:Hlit; [| done]. by intros [= <-].
Qed.

Lemma is_tipe_literal_spec s :
  is_tipe_literal s = true <-> s = "pemasukan" \/ s = "pengeluaran".
Proof.
  unfold is_tipe_literal. rewrite orb_true_iff, !String.eqb_eq. done.
Qed.

Lemma valid_not_invalid f tx :
  validate_TransactionIn (BodyObject f) = Ok tx -> ~ invalid_record f.
Proof.
  intros H. apply validate_ok in H as (f' & [= <-] & Ht & _ & _ & Hk & Hj & Hty).
  apply validate_jumlah_ge in Hj as [Hj Hge].
  apply validate_tipe_literal in Hty as [Hty Hlit].
  apply is_tipe_literal_spec in Hlit.
  intros [x Hx Hneg | Hp Hq | k Hk' Hnone | Hbad | Hbad | Hbad].
  - rewrite Hj in Hx. injection Hx as <-.
    apply float_negative_not_ge0 in Hneg. congruence.
  - destruct Hlit as [Heq | Heq]; rewrite Heq in Hty; done.
  - unfold required_fields in Hk'.
    repeat (apply elem_of_cons in Hk' as [-> | Hk']);
      [| | | | by apply elem_of_nil in Hk'];
      rewrite Hnone in *; done.
  - congruence.
  - unfold validate_str in Hk. destruct (f !! "keterangan") as [[| | |s|]|] eqn:E; try done.
    by apply (Hbad s).
  - congruence.
Qed.

Lemma invalid_rejected f :
  invalid_record f -> validate_TransactionIn (BodyObject f) = Raise RequestValidationError.
Proof.
  intros Hinv. destruct (validate_TransactionIn (BodyObject f)) as [tx|e] eqn:H.
  - by apply valid_not_invalid in H.
  - by rewrite (validate_raises _ _ H).
Qed.

(** The handler's second validation accepts what the first one built. *)
Lemma schema_accepts b tx :
  validate_TransactionIn b = Ok tx -> TransactionSchema (model_dump tx) = Ok tx.
Proof.
  intros H. apply validate_ok in H as (f & _ & _ & _ & _ & _ & Hj & Hty).
  apply validate_jumlah_ge in Hj as [_ Hge].
  apply validate_tipe_literal in Hty as [_ Hlit].
  destruct tx as [t p k ket j ty]. simpl in *.
  unfold TransactionSchema, model_dump. simpl.
  repeat (rewrite lookup_insert_eq || rewrite lookup_insert_ne by done).
  assert (Hp : dumped_opt_str (Some (py_opt_str p)) = Some p) by (by destruct p).
  assert (Hk : dumped_opt_str (Some (py_opt_str k)) = Some k) by (by destruct k).
  rewrite Hp, Hk, Hlit, Hge. done.
Qed.

(** ** Deleting *)

Lemma matches_id v (d : doc) : matches {["_id" := v]} d = true <-> d !! "_id" = Some v.
Proof.
  unfold matches. rewrite bool_decide_eq_true.
  by rewrite (map_Forall_singleton (fun k w => d !! k = Some w)).
Qed.

Lemma remove_first_none filt coll :
  remove_first filt coll = None <-> Forall (fun d => matches filt d = false) coll.
Proof.
  induction coll as [|d coll IH]; simpl.
  - split; [constructor | done].
  - destruct (matches filt d) eqn:Hm.
    + split; [done |]. intros H. inversion H; congruence.
    + rewrite fmap_None, IH. split.
      * intros H. by constructor.
      * intros H. by inversion H.
Qed.

Lemma remove_first_some filt coll d :
  d ∈ coll -> matches filt d = true -> exists coll', remove_first filt coll = Some coll'.
Proof.
  intros Hin Hm. destruct (remove_first filt coll) as [coll'|] eqn:H; [by eexists |].
  apply remove_first_none in H. rewrite Forall_forall in H.
  specialize (H d Hin). congruence.
Qed.

Lemma remove_first_unique v coll coll' :
  ids_unique coll ->
  remove_first {["_id" := v]} coll = Some coll' ->
  remove_first {["_id" := v]} coll' = None.
Proof.
  unfold ids_unique. revert coll'.
  induction coll as [|d coll IH]; intros coll' Hnd H; simpl in *; [done |].
  apply NoDup_cons in Hnd as [Hnotin Hnd].
  destruct (matches {["_id" := v]} d) eqn:Hm.
  - injection H as <-. apply matches_id in Hm.
    apply remove_first_none, Forall_forall. intros d' Hd'.
    destruct (matches {["_id" := v]} d') eqn:Hm'; [| done].
    apply matches_id in Hm'. exfalso. apply Hnotin.
    apply list_elem_of_fmap. exists d'. split; [| done].
    unfold dict_get. by rewrite Hm, Hm'.
  - destruct (remove_first {["_id" := v]} coll) as [c|] eqn:Hc; [| done].
    simpl in H. injection H as <-. simpl. rewrite Hm.
    by rewrite (IH c Hnd).
Qed.

Lemma collection_insert (base : database) name coll :
  collection (<[name := coll]> base) name = coll.
Proof. unfold collection. by rewrite lookup_insert_eq. Qed.

Lemma delete_eval env base tx_id tok oid :
  is_admin env tok = true -> ObjectId tx_id = Ok oid ->
  DELETE_transactions env (Some base) tx_id tok =
    match remove_first {["_id" := PyObjectId oid]} (collection base COLLECTION) with
    | Some coll' => (Ok {["message" := "Transaksi dihapus"]},
                     Some (<[COLLECTION := coll']> base))
    | None => (Raise not_found, Some base)
    end.
Proof.
  intros Hadm Hoid. unfold DELETE_transactions, delete_transaction, delete_one.
  rewrite Hadm, Hoid. simpl.
  by destruct (remove_first _ _).
Qed.

(** ** Listing *)

Lemma insert_desc_perm {A} kx (x : A) s r :
  insert_desc kx x s = Ok r -> r ≡ₚ (kx, x) :: s.
Proof.
  revert r. induction s as [|[ky y] s IH]; intros r; simpl.
  - by intros [= <-].
  - destruct (py_lt kx ky) as [[|]|e]; simpl; [| by intros [= <-] | done].
    destruct (insert_desc kx x s) as [r'|e]; simpl; [| done].
    intros [= <-]. rewrite (IH r' eq_refl). apply perm_swap.
Qed.

Lemma sort_desc_perm {A} (xs s : list (pyvalue * A)) : sort_desc xs = Ok s -> s ≡ₚ xs.
Proof.
  revert s. induction xs as [|[kx x] xs IH]; intros s; simpl.
  - by intros [= <-].
  - destruct (sort_desc xs) as [s'|e]; simpl; [| done].
    intros H. apply insert_desc_perm in H. rewrite H. f_equiv. by apply IH.
Qed.

Lemma sorted_reverse_perm {A} (xs ys : list A) key :
  sorted_reverse xs key = Ok ys -> ys ≡ₚ xs.
Proof.
  unfold sorted_reverse.
  destruct (sort_desc _) as [s|e] eqn:Hs; simpl; [| done].
  intros [= <-]. apply sort_desc_perm in Hs.
  change (snd <$> s ≡ₚ xs). rewrite Hs.
  clear. induction xs as [|x xs IH]; simpl; [done | by f_equiv].
Qed.

Lemma get_eval db limit tipe n t :
  validate_limit limit = Ok n -> validate_tipe_query tipe = Ok t ->
  GET_transactions db limit tipe = list_transactions db n t.
Proof. intros Hn Ht. unfold GET_transactions. by rewrite Hn, Ht. Qed.

Lemma list_returns db n t docs :
  get_documents db COLLECTION (list_filter t) (Some n) = Ok docs ->
  Forall dates_typed docs ->
  exists ys, sorted_reverse docs sort_key = Ok ys /\ ys ≡ₚ docs /\
    list_transactions db n t = Ok (map normalize ys) /\
    StronglySorted (fun a b => (key_of b <= key_of a)%N) ys.
Proof.
  intros Hget Hty.
  destruct (sorted_reverse_dt docs sort_key) as (ys & Hsort & Hperm & Hs).
  { eapply Forall_impl; [exact Hty |]. intros d Hd.
    rewrite (sort_key_typed d Hd). by eexists. }
  exists ys. split; [done | split; [done | split]].
  - unfold list_transactions. rewrite Hget. simpl. by rewrite Hsort.
  - assert (Hty' : Forall dates_typed ys) by (by rewrite Hperm).
    clear -Hs Hty'. induction Hs as [|y ys Hs IH Hall]; [constructor |].
    inversion Hty' as [|? ? Hy Hys]; subst.
    constructor; [by apply IH |].
    rewrite Forall_forall in Hall, Hys |- *. intros z Hz.
    specialize (Hall z Hz). simpl in Hall.
    by rewrite (sort_key_typed y Hy), (sort_key_typed z (Hys z Hz)) in Hall.
Qed.

(** ** Properties of the routes *)

(** C1. For every record set the store returns, the stats endpoint
    returns [pemasukan] equal to the sum of [jumlah] (a missing one
    counting as 0) over the records whose [tipe] is "pemasukan",
    [pengeluaran] equal to the same sum over the records whose [tipe] is
    "pengeluaran", and [saldo] equal to [pemasukan] minus [pengeluaran],
    the sums being the interpreter's [sum] of those amounts in the order
    of the records and the difference Python's [-], exact on ints and
    rounded to the nearest float on floats. Where [sum] adds left to right
    and every [jumlah] is a number, each sum is the chain of additions
    from the int 0; when the amounts are floats, as this program stores
    them, the three values are returned and each sum is the chain of float
    additions from 0.0. Where [sum] is exact on ints and the amounts are
    ints, the sums are the exact integer sums; for the empty record set
    all three are 0. *)
Theorem stats_totals db docs :
  get_documents db COLLECTION ∅ None = Ok docs ->
  GET_stats db =
    (p <- builtin_sum (amounts "pemasukan" docs) ;;
     q <- builtin_sum (amounts "pengeluaran" docs) ;;
     s <- py_sub p q ;;
     Ok {| pemasukan := p; pengeluaran := q; saldo := s |}) /\
  (sums_left_to_right -> Forall jumlah_typed docs ->
   GET_stats db =
     (p <- total "pemasukan" docs ;;
      q <- total "pengeluaran" docs ;;
      s <- num_sub p q ;;
      Ok {| pemasukan := py_num p; pengeluaran := py_num q; saldo := py_num s |})) /\
  (sums_left_to_right -> Forall jumlah_float docs ->
   exists s,
     num_sub (float_total "pemasukan" docs) (float_total "pengeluaran" docs) = Ok s /\
     GET_stats db =
       Ok {| pemasukan := py_num (float_total "pemasukan" docs);
             pengeluaran := py_num (float_total "pengeluaran" docs);
             saldo := py_num s |}) /\
  (sum_exact_on_ints -> Forall jumlah_int docs ->
   GET_stats db =
     Ok {| pemasukan := PyNum (int_total "pemasukan" docs);
           pengeluaran := PyNum (int_total "pengeluaran" docs);
           saldo := PyNum (int_total "pemasukan" docs - int_total "pengeluaran" docs) |}) /\
  (empty_sum_is_zero -> docs = [] ->
   GET_stats db =
     Ok {| pemasukan := PyNum 0; pengeluaran := PyNum 0; saldo := PyNum 0 |}).
Proof.
  intros Hget.
  assert (Hstats : GET_stats db =
    (p <- builtin_sum (amounts "pemasukan" docs) ;;
     q <- builtin_sum (amounts "pengeluaran" docs) ;;
     s <- py_sub p q ;;
     Ok {| pemasukan := p; pengeluaran := q; saldo := s |})).
  { unfold GET_stats, stats. by rewrite Hget. }
  assert (Htotal : sums_left_to_right -> Forall jumlah_typed docs ->
    GET_stats db =
      (p <- total "pemasukan" docs ;;
       q <- total "pengeluaran" docs ;;
       s <- num_sub p q ;;
       Ok {| pemasukan := py_num p; pengeluaran := py_num q; saldo := py_num s |})).
  { intros Hsum Hty. unfold GET_stats, stats. rewrite Hget. simpl.
    rewrite !sum_jumlah_total
      by first [exact Hsum | eapply Forall_impl; [exact Hty | by intros d Hd _]].
    destruct (total "pemasukan" docs) as [p|e]; simpl; [| done].
    destruct (total "pengeluaran" docs) as [q|e]; simpl; [| done].
    rewrite py_sub_num. by destruct (num_sub p q). }
  split; [exact Hstats | split; [exact Htotal | split; [| split]]].
  - intros Hsum Hfl.
    destruct (float_total_sub "pemasukan" "pengeluaran" docs) as [s Hs].
    exists s. split; [exact Hs |].
    rewrite Htotal; [| done | eapply Forall_impl; [exact Hfl |]].
    + rewrite !total_float by done. simpl. by rewrite Hs.
    + intros d [Hd | [x Hd]]; [by left | right; right; by exists x].
  - intros Hsum Hint. rewrite Hstats.
    rewrite !amounts_int, !Hsum, !int_amounts_total by done. reflexivity.
  - intros Hsum ->. rewrite Hstats. simpl. unfold amounts. simpl.
    unfold empty_sum_is_zero in Hsum. rewrite Hsum. reflexivity.
Qed.

(** C2, amended. For every request to a mutating endpoint whose
    X-Admin-Token header is absent or differs from ADMIN_TOKEN, or when
    ADMIN_TOKEN is unset: a delete request is answered Forbidden (403); a
    create request whose body passes validation is answered Forbidden
    (403); a create request whose body fails validation is answered
    ValidationError (422), the body being checked before the token. In
    each case the store is left as it was. *)
Theorem mutation_without_token env db tok :
  token_invalid env tok ->
  (forall tx_id,
      DELETE_transactions env db tx_id tok = (Raise forbidden, db)) /\
  (forall b tx, validate_TransactionIn b = Ok tx ->
      POST_transactions env db b tok = (Raise forbidden, db)) /\
  (forall b e, validate_TransactionIn b = Raise e ->
      POST_transactions env db b tok = (Raise RequestValidationError, db)) /\
  http_status (A := gmap string string) 201 (Raise forbidden) = 403 /\
  http_status (A := gmap string string) 201 (Raise RequestValidationError) = 422.
Proof.
  intros Hinv. apply is_admin_invalid in Hinv.
  split; [| split; [| split; [| split]]].
  - intros tx_id. by apply delete_forbidden.
  - intros b tx Hb. rewrite (post_valid _ _ _ _ _ Hb). by apply create_forbidden.
  - intros b e Hb. by eapply post_invalid.
  - reflexivity.
  - reflexivity.
Qed.

(** C3, amended. If ADMIN_TOKEN is unset, then for every X-Admin-Token
    header value (None included) [is_admin] returns false; every delete
    request, and every create request whose body passes validation, is
    denied with Forbidden; no create request succeeds, and the store is
    left as it was. *)
Theorem unset_secret_denies env tok :
  getenv env "ADMIN_TOKEN" = None ->
  is_admin env tok = false /\
  (forall db tx_id,
      DELETE_transactions env db tx_id tok = (Raise forbidden, db)) /\
  (forall db b tx, validate_TransactionIn b = Ok tx ->
      POST_transactions env db b tok = (Raise forbidden, db)) /\
  (forall db b, exists e, POST_transactions env db b tok = (Raise e, db)).
Proof.
  intros Hunset. pose proof (is_admin_unset env tok Hunset) as Hadm.
  split; [exact Hadm | split; [| split]].
  - intros db tx_id. by apply delete_forbidden.
  - intros db b tx Hb. rewrite (post_valid _ _ _ _ _ Hb). by apply create_forbidden.
  - intros db b. destruct (validate_TransactionIn b) as [tx|e] eqn:Hb.
    + exists forbidden. rewrite (post_valid _ _ _ _ _ Hb). by apply create_forbidden.
    + exists RequestValidationError. by eapply post_invalid.
Qed.

(** C4. For every list of documents the store returns (a date field that
    is there being a date-time or null), the list endpoint answers with
    those records, each normalized, sorted descending by the sort key:
    [tanggal], else [created_at], else the least date-time. For any two
    returned records A before B, A's sort key is greater than or equal to
    B's. *)
Theorem list_sorted_descending db limit tipe n t docs :
  validate_limit limit = Ok n ->
  validate_tipe_query tipe = Ok t ->
  get_documents db COLLECTION (list_filter t) (Some n) = Ok docs ->
  Forall dates_typed docs ->
  exists items,
    GET_transactions db limit tipe = Ok items /\
    items ≡ₚ map normalize docs /\
    forall (i j : nat) a b,
      (i < j)%nat -> items !! i = Some a -> items !! j = Some b ->
      sort_key a = PyDatetime (key_of a) /\
      sort_key b = PyDatetime (key_of b) /\
      (key_of b <= key_of a)%N.
Proof.
  intros Hn Ht Hget Hty.
  destruct (list_returns db n t docs Hget Hty) as (ys & _ & Hperm & Hlist & Hs).
  exists (map normalize ys). split; [| split].
  - by rewrite (get_eval _ _ _ _ _ Hn Ht).
  - change (normalize <$> ys ≡ₚ normalize <$> docs). by rewrite Hperm.
  - assert (Hty' : Forall dates_typed ys) by (by rewrite Hperm).
    intros i j a b Hij Ha Hb.
    change (map normalize ys) with (normalize <$> ys) in Ha, Hb.
    rewrite list_lookup_fmap in Ha, Hb.
    destruct (ys !! i) as [a0|] eqn:Hi; [| done].
    destruct (ys !! j) as [b0|] eqn:Hj; [| done].
    simpl in Ha, Hb. injection Ha as <-. injection Hb as <-.
    rewrite Forall_forall in Hty'.
    rewrite !sort_key_normalize, !key_of_normalize.
    split; [| split].
    + apply sort_key_typed, Hty'. by eapply list_elem_of_lookup_2.
    + apply sort_key_typed, Hty'. by eapply list_elem_of_lookup_2.
    + by apply (sorted_lookup _ ys Hs i j).
Qed.

(** C5. For every record submitted to the create endpoint with an admin
    token: if [jumlah] is negative, or [tipe] is not one of the two
    literals, or a required field is missing or ill-typed, the request
    fails with ValidationError and nothing is persisted; a record that
    passes validation has [jumlah >= 0], a literal [tipe], and is handed
    to the store; whatever is accepted passed validation. *)
Theorem create_validates env db tok :
  is_admin env tok = true ->
  (forall f, invalid_record f ->
      POST_transactions env db (BodyObject f) tok = (Raise RequestValidationError, db) /\
      http_status 201 (POST_transactions env db (BodyObject f) tok).1 = 422) /\
  (forall b tx, validate_TransactionIn b = Ok tx ->
      float_ge0 (jumlah tx) = true /\
      (tipe tx = "pemasukan" \/ tipe tx = "pengeluaran") /\
      POST_transactions env db b tok =
        ((new_id <- (create_document db COLLECTION tx).1 ;;
          Ok (<["id" := new_id]> {["message" := "Transaksi berhasil ditambahkan"]})),
         (create_document db COLLECTION tx).2)) /\
  (forall b out db', POST_transactions env db b tok = (Ok out, db') ->
      exists tx, validate_TransactionIn b = Ok tx /\ float_ge0 (jumlah tx) = true).
Proof.
  intros Hadm.
  assert (Hvalid : forall b tx, validate_TransactionIn b = Ok tx ->
    float_ge0 (jumlah tx) = true /\ (tipe tx = "pemasukan" \/ tipe tx = "pengeluaran")).
  { intros b tx Hb. apply validate_ok in Hb as (f & _ & _ & _ & _ & _ & Hj & Hty).
    apply validate_jumlah_ge in Hj as [_ Hge].
    apply validate_tipe_literal in Hty as [_ Hlit].
    by apply is_tipe_literal_spec in Hlit. }
  split; [| split].
  - intros f Hf. apply invalid_rejected in Hf.
    rewrite (post_invalid env db _ tok _ Hf). done.
  - intros b tx Hb. destruct (Hvalid b tx Hb) as [Hge Hlit].
    split; [done | split; [done |]].
    rewrite (post_valid _ _ _ _ _ Hb). unfold create_transaction.
    rewrite Hadm, (schema_accepts b tx Hb). simpl.
    by destruct (create_document db COLLECTION tx).
  - intros b out db' Hpost.
    destruct (validate_TransactionIn b) as [tx|e] eqn:Hb.
    + exists tx. split; [done |]. by apply (Hvalid b tx Hb).
    + rewrite (post_invalid env db b tok e Hb) in Hpost. done.
Qed.

(** C6. For every request to the delete endpoint with a valid admin token
    and an available store, the response is NotFound exactly when the
    store's [delete_one] was run and reported a deleted count of 0;
    deleting an existing id and then deleting the same id again returns
    success first and NotFound second. *)
Theorem delete_not_found env base tx_id tok :
  is_admin env tok = true ->
  ((DELETE_transactions env (Some base) tx_id tok).1 = Raise not_found <->
   exists oid, ObjectId tx_id = Ok oid /\
     (delete_one base COLLECTION {["_id" := PyObjectId oid]}).2 = 0) /\
  (http_status 200 (DELETE_transactions env (Some base) tx_id tok).1 = 404 <->
   (DELETE_transactions env (Some base) tx_id tok).1 = Raise not_found) /\
  (forall oid d,
      ObjectId tx_id = Ok oid ->
      ids_unique (collection base COLLECTION) ->
      d ∈ collection base COLLECTION -> d !! "_id" = Some (PyObjectId oid) ->
      (DELETE_transactions env (Some base) tx_id tok).1
        = Ok {["message" := "Transaksi dihapus"]} /\
      (DELETE_transactions env
         (DELETE_transactions env (Some base) tx_id tok).2 tx_id tok).1
        = Raise not_found).
Proof.
  intros Hadm. split; [| split].
  - destruct (ObjectId tx_id) as [oid|e] eqn:Hoid.
    + rewrite (delete_eval _ _ _ _ _ Hadm Hoid). unfold delete_one.
      destruct (remove_first _ _) as [coll'|] eqn:Hrm; simpl.
      * split; [done |]. intros (oid' & [= <-] & H). by rewrite Hrm in H.
      * split; [| done]. intros _. exists oid. by rewrite Hrm.
    + unfold DELETE_transactions, delete_transaction. rewrite Hadm, Hoid. simpl.
      split; [| by intros (oid & ? & _)].
      intros [= ->]. unfold ObjectId in Hoid.
      destruct (_ =? _)%nat; [destruct (fromhex _) |]; done.
  - destruct (ObjectId tx_id) as [oid|e] eqn:Hoid.
    + rewrite (delete_eval _ _ _ _ _ Hadm Hoid).
      by destruct (remove_first _ _).
    + unfold DELETE_transactions, delete_transaction. rewrite Hadm, Hoid. simpl.
      unfold ObjectId in Hoid.
      destruct (_ =? _)%nat; [destruct (fromhex _) |];
        try done; injection Hoid as <-; done.
  - intros oid d Hoid Huniq Hin Hid.
    rewrite (delete_eval _ _ _ _ _ Hadm Hoid).
    destruct (remove_first_some {["_id" := PyObjectId oid]} _ d Hin) as [coll' Hrm].
    { by apply matches_id. }
    rewrite Hrm. simpl. split; [done |].
    rewrite (delete_eval _ _ _ _ _ Hadm Hoid), collection_insert.
    by rewrite (remove_first_unique _ _ _ Huniq Hrm).
Qed.

(** C7. For every request to the list endpoint, a [limit] outside the
    range 1..500 fails with ValidationError, and so does a [tipe] that is
    not one of the two literals; an omitted [limit] is 100; in particular
    [limit=0] fails with ValidationError. *)
Theorem list_query_validated db :
  (forall s n tipe, int_of_str s = Some n -> n < 1 \/ 500 < n ->
      GET_transactions db (Some s) tipe = Raise RequestValidationError) /\
  (forall limit t, t <> "pemasukan" -> t <> "pengeluaran" ->
      GET_transactions db limit (Some t) = Raise RequestValidationError) /\
  (forall tipe, GET_transactions db None tipe =
      (tipe' <- validate_tipe_query tipe ;; list_transactions db 100 tipe')) /\
  (forall tipe, int_of_str "0" = Some 0 ->
      GET_transactions db (Some "0") tipe = Raise RequestValidationError) /\
  http_status (A := list doc) 200 (Raise RequestValidationError) = 422.
Proof.
  assert (Hlimit : forall s n tipe, int_of_str s = Some n -> n < 1 \/ 500 < n ->
    GET_transactions db (Some s) tipe = Raise RequestValidationError).
  { intros s n tipe Hs Hout. unfold GET_transactions, validate_limit. rewrite Hs.
    destruct (1 <=? n) eqn:H1; destruct (n <=? 500) eqn:H2; simpl; try done.
    apply Z.leb_le in H1, H2. lia. }
  split; [exact Hlimit | split; [| split; [| split]]].
  - intros limit t Hp Hq. unfold GET_transactions.
    destruct (validate_limit limit) as [n|e] eqn:Hn; simpl.
    + unfold tipe_pattern.
      destruct (String.eqb_spec t "pemasukan"); [done |].
      destruct (String.eqb_spec t "pengeluaran"); done.
    + unfold validate_limit in Hn. destruct limit as [s|]; [| done].
      destruct (int_of_str s) as [m|]; [| congruence].
      destruct ((1 <=? m) && (m <=? 500)); congruence.
  - done.
  - intros tipe H0. apply (Hlimit "0" 0 tipe H0). lia.
  - done.
Qed.

(** C8. Every record the list endpoint returns carries its identifier as
    a string field [id], which is [str] of the document's internal [_id]
    (the hexadecimal form of an ObjectId), and has no [_id] field. The
    endpoint does return when the date fields of the documents are
    date-times or null. *)
Theorem list_items_carry_id db limit tipe n t docs :
  validate_limit limit = Ok n ->
  validate_tipe_query tipe = Ok t ->
  get_documents db COLLECTION (list_filter t) (Some n) = Ok docs ->
  (forall items, GET_transactions db limit tipe = Ok items ->
     forall item, item ∈ items ->
       item !! "_id" = None /\
       exists d, d ∈ docs /\ item = normalize d /\
         item !! "id" = Some (PyStr (py_str (dict_get d "_id"))) /\
         (forall hex, d !! "_id" = Some (PyObjectId hex) ->
            item !! "id" = Some (PyStr hex))) /\
  (Forall dates_typed docs ->
     exists items, GET_transactions db limit tipe = Ok items /\
       length items = length docs).
Proof.
  intros Hn Ht Hget. rewrite (get_eval _ _ _ _ _ Hn Ht). split.
  - intros items Hitems item Hitem.
    unfold list_transactions in Hitems. rewrite Hget in Hitems. simpl in Hitems.
    destruct (sorted_reverse docs sort_key) as [ys|e] eqn:Hsort; [| done].
    simpl in Hitems. injection Hitems as <-.
    apply sorted_reverse_perm in Hsort.
    change (item ∈ normalize <$> ys) in Hitem.
    apply list_elem_of_fmap in Hitem as (d & -> & Hd).
    rewrite Hsort in Hd. split.
    + unfold normalize. apply lookup_delete_eq.
    + exists d. split; [done | split; [done |]].
      assert (Hid : normalize d !! "id" = Some (PyStr (py_str (dict_get d "_id")))).
      { unfold normalize. rewrite lookup_delete_ne by done. apply lookup_insert_eq. }
      split; [exact Hid |].
      intros hex Hhex. rewrite Hid. unfold dict_get. by rewrite Hhex.
  - intros Hty.
    destruct (list_returns db n t docs Hget Hty) as (ys & _ & Hperm & Hlist & _).
    exists (map normalize ys). split; [done |].
    by rewrite length_map, Hperm.
Qed.

(** C9. If ADMIN_TOKEN is set to the empty string, [is_admin] returns
    false for every header value, the empty string included, so the
    handlers of both mutating endpoints deny with Forbidden. *)
Theorem empty_secret_denies env tok :
  getenv env "ADMIN_TOKEN" = Some "" ->
  is_admin env tok = false /\
  is_admin env (Some "") = false /\
  (forall db tx_id, delete_transaction env db tx_id tok = (Raise forbidden, db)) /\
  (forall db tx, create_transaction env db tx tok = (Raise forbidden, db)).
Proof.
  intros Hempty. pose proof (is_admin_empty env tok Hempty) as Hadm.
  split; [exact Hadm | split; [by apply is_admin_empty | split]].
  - intros db tx_id. by apply delete_forbidden.
  - intros db tx. by apply create_forbidden.
Qed.

(** C10. For every delete request with a valid admin token and an
    available store whose path id does not parse as an ObjectId, the
    conversion raises InvalidId, which is answered as a server error (500)
    and not as NotFound, and the record collection is unchanged. *)
Theorem delete_unparseable_id env base tx_id tok :
  is_admin env tok = true ->
  (forall oid, ObjectId tx_id <> Ok oid) ->
  DELETE_transactions env (Some base) tx_id tok = (Raise InvalidId, Some base) /\
  http_status 200 (DELETE_transactions env (Some base) tx_id tok).1 = 500 /\
  (DELETE_transactions env (Some base) tx_id tok).1 <> Raise not_found.
Proof.
  intros Hadm Hbad.
  assert (Hoid : ObjectId tx_id = Raise InvalidId).
  { unfold ObjectId in *. destruct (_ =? _)%nat; [| done].
    destruct (fromhex _) as [h|]; [| done]. by destruct (Hbad (string_of_list_ascii h)). }
  assert (Hdel : DELETE_transactions env (Some base) tx_id tok = (Raise InvalidId, Some base)).
  { unfold DELETE_transactions, delete_transaction. by rewrite Hadm, Hoid. }
  rewrite Hdel. done.
Qed.

(** ** Further properties *)

(** *** The admin gate, exactly *)

(** X1. [is_admin] accepts a header exactly when the secret is set, is not
    the empty string, and the header is present and equal to it. *)
Theorem is_admin_exactly env tok :
  is_admin env tok = true <->
  exists secret, getenv env "ADMIN_TOKEN" = Some secret /\ secret <> "" /\ tok = Some secret.
Proof.
  unfold is_admin. destruct (getenv env "ADMIN_TOKEN") as [a|]; simpl.
  - destruct (String.eqb_spec a "") as [-> | Hne]; simpl.
    + split; [done |]. intros (s & [= <-] & Hs & _). done.
    + rewrite bool_decide_eq_true. split.
      * intros ->. by exists a.
      * intros (s & [= <-] & _ & ->). done.
  - split; [done |]. intros (s & Hs & _). done.
Qed.

(** *** Stats on records outside the Transaction shape *)

Lemma num_add_raises a b e : num_add a b = Raise e -> e = OverflowError.
Proof.
  destruct a as [x|x], b as [y|y]; simpl; try done.
  - unfold float_of_int. destruct (float_of_Z x); simpl; congruence.
  - unfold float_of_int. destruct (float_of_Z y); simpl; congruence.
Qed.

Lemma py_add_non_number acc v :
  (forall n, v <> py_num n) -> py_add (py_num acc) v = Raise TypeError.
Proof.
  intros Hv. destruct acc as [z|x], v as [|n|y|s|t|h]; simpl; try done.
  - by destruct (Hv (NInt n)).
  - by destruct (Hv (NFloat y)).
  - by destruct (Hv (NInt n)).
  - by destruct (Hv (NFloat y)).
Qed.

Lemma number_or_not v : (exists n, v = py_num n) \/ (forall n, v <> py_num n).
Proof.
  destruct v as [|n|y|s|t|h];
    try (right; by intros [z|x]);
    left; [by exists (NInt n) | by exists (NFloat y)].
Qed.

Lemma sum_raises xs : forall acc e,
  py_sum_from (py_num acc) xs = Raise e -> e = TypeError \/ e = OverflowError.
Proof.
  induction xs as [|x xs IH]; intros acc e; simpl; [done |].
  destruct (py_add (py_num acc) x) as [v|e'] eqn:Hadd; simpl.
  - assert (exists acc', v = py_num acc') as [acc' ->].
    { destruct acc as [z|a], x as [|n|y|s|t|h]; simpl in Hadd; try done.
      - injection Hadd as <-. by exists (NInt (z + n)).
      - destruct (float_of_int z); simpl in Hadd; [| done].
        injection Hadd as <-. by eexists (NFloat _).
      - destruct (float_of_int n); simpl in Hadd; [| done].
        injection Hadd as <-. by eexists (NFloat _).
      - injection Hadd as <-. by eexists (NFloat _). }
    apply IH.
  - intros [= <-].
    destruct acc as [z|a], x as [|n|y|s|t|h]; simpl in Hadd;
      try (injection Hadd as <-; by left); try done.
    + right. unfold float_of_int in Hadd.
      destruct (float_of_Z z); simpl in Hadd; congruence.
    + right. unfold float_of_int in Hadd.
      destruct (float_of_Z n); simpl in Hadd; congruence.
Qed.

Lemma sum_counted_error t docs : forall acc,
  Exists (fun d => has_tipe t d = true /\ ~ jumlah_typed d) docs ->
  exists e,
    py_sum_from (py_num acc)
      (map (fun d => dict_get_default d "jumlah" (PyNum 0))
           (List.filter (fun d => py_eq (dict_get d "tipe") (PyStr t)) docs))
    = Raise e /\ (e = TypeError \/ e = OverflowError).
Proof.
  induction docs as [|d docs IH]; intros acc Hex; [by inversion Hex |].
  simpl. rewrite py_eq_has_tipe.
  destruct (has_tipe t d) eqn:Ht; simpl.
  - destruct (d !! "jumlah") as [v|] eqn:Hj.
    + destruct (number_or_not v) as [[n ->] | Hbad].
      * assert (Hd : jumlah_typed d).
        { right. destruct n as [z|x]; [left | right]; by eexists. }
        rewrite (amount_typed d Hd), py_add_num.
        destruct (num_add acc (amount d)) as [acc'|e] eqn:Hadd; simpl.
        -- apply IH. inversion Hex as [? ? [_ Hno]|]; subst; done.
        -- exists e. split; [done |]. right. by apply (num_add_raises _ _ _ Hadd).
      * exists TypeError. split; [| by left].
        unfold dict_get_default. rewrite Hj. simpl.
        by rewrite py_add_non_number.
    + assert (Hd : jumlah_typed d) by (by left).
      rewrite (amount_typed d Hd), py_add_num.
      destruct (num_add acc (amount d)) as [acc'|e] eqn:Hadd; simpl.
      * apply IH. inversion Hex as [? ? [_ Hno]|]; subst; done.
      * exists e. split; [done |]. right. by apply (num_add_raises _ _ _ Hadd).
  - apply IH. inversion Hex as [? ? [Ht' _]|]; subst; [congruence | done].
Qed.

Lemma total_from_counted t docs : forall acc,
  t = "pemasukan" \/ t = "pengeluaran" ->
  total_from acc t (List.filter counted docs) = total_from acc t docs.
Proof.
  intros acc Ht. revert acc.
  induction docs as [|d docs IH]; intros acc; simpl; [done |].
  destruct (has_tipe t d) eqn:Hd.
  - assert (counted d = true) as ->.
    { unfold counted. unfold has_tipe in Hd.
      destruct Ht as [-> | ->]; rewrite Hd; [done | apply orb_true_r]. }
    simpl. rewrite Hd. destruct (num_add acc (amount d)); simpl; [apply IH | done].
  - destruct (counted d); simpl; [rewrite Hd |]; apply IH.
Qed.

Lemma amounts_counted t docs :
  t = "pemasukan" \/ t = "pengeluaran" ->
  amounts t (List.filter counted docs) = amounts t docs.
Proof.
  intros Ht. unfold amounts.
  induction docs as [|d docs IH]; simpl; [done |].
  rewrite py_eq_has_tipe. destruct (has_tipe t d) eqn:Hd.
  - assert (counted d = true) as ->.
    { unfold counted. unfold has_tipe in Hd.
      destruct Ht as [-> | ->]; rewrite Hd; [done | apply orb_true_r]. }
    simpl. rewrite py_eq_has_tipe, Hd. simpl. by rewrite IH.
  - destruct (counted d); simpl; [rewrite py_eq_has_tipe, Hd |]; apply IH.
Qed.

(** X2. The stats endpoint looks at the [jumlah] of a record only when its
    [tipe] is one of the two literals: the amounts it sums, and so the
    totals, are those of these records alone, whatever the other records
    hold. Where [sum] adds left to right: when each of these records has a
    [jumlah] that is absent or a number the endpoint answers with the sums
    and their difference; when one of them has a [jumlah] that is there and
    not a number (null included) the request ends in a server error,
    raised by the addition ([TypeError], or [OverflowError] when an int too
    large for a float was met first). *)
Theorem stats_counts_literals_only db docs :
  get_documents db COLLECTION ∅ None = Ok docs ->
  (amounts "pemasukan" (List.filter counted docs) = amounts "pemasukan" docs /\
   amounts "pengeluaran" (List.filter counted docs) = amounts "pengeluaran" docs) /\
  (total "pemasukan" (List.filter counted docs) = total "pemasukan" docs /\
   total "pengeluaran" (List.filter counted docs) = total "pengeluaran" docs) /\
  (sums_left_to_right ->
   Forall (fun d => counted d = true -> jumlah_typed d) docs ->
   GET_stats db =
     (p <- total "pemasukan" docs ;;
      q <- total "pengeluaran" docs ;;
      s <- num_sub p q ;;
      Ok {| pemasukan := py_num p; pengeluaran := py_num q; saldo := py_num s |})) /\
  (sums_left_to_right ->
   Exists (fun d => counted d = true /\ ~ jumlah_typed d) docs ->
   (GET_stats db = Raise TypeError \/ GET_stats db = Raise OverflowError) /\
   http_status 200 (GET_stats db) = 500).
Proof.
  intros Hget. split; [| split; [| split]].
  - split; apply amounts_counted; [by left | by right].
  - unfold total. split; apply total_from_counted; [by left | by right].
  - intros Hsum Hty. unfold GET_stats, stats. rewrite Hget. simpl.
    rewrite !sum_jumlah_total.
    + destruct (total "pemasukan" docs) as [p|e]; simpl; [| done].
      destruct (total "pengeluaran" docs) as [q|e]; simpl; [| done].
      rewrite py_sub_num. by destruct (num_sub p q).
    + exact Hsum.
    + eapply Forall_impl; [exact Hty |]. intros d Hd Ht. apply Hd.
      unfold counted. unfold has_tipe in Ht. rewrite Ht. apply orb_true_r.
    + exact Hsum.
    + eapply Forall_impl; [exact Hty |]. intros d Hd Ht. apply Hd.
      unfold counted. unfold has_tipe in Ht. by rewrite Ht.
  - intros Hsum Hex.
    assert (Hraise : exists e, GET_stats db = Raise e /\ (e = TypeError \/ e = OverflowError)).
    { unfold GET_stats, stats. rewrite Hget. simpl. unfold sum_jumlah.
      rewrite !Hsum. unfold py_sum, amounts.
      destruct (py_sum_from (PyNum 0)
                  (map (fun d => dict_get_default d "jumlah" (PyNum 0))
                     (List.filter (fun d => py_eq (dict_get d "tipe") (PyStr "pemasukan"))
                        docs))) as [p|e] eqn:Hp; simpl.
      - assert (Hq : Exists (fun d => has_tipe "pengeluaran" d = true /\ ~ jumlah_typed d) docs).
        { apply Exists_exists in Hex as (d & Hin & Hc & Hbad).
          apply Exists_exists. exists d. split; [done |]. split; [| done].
          unfold counted in Hc. apply orb_true_iff in Hc as [Hc | Hc]; [| done].
          exfalso.
          assert (Hpem : Exists (fun d => has_tipe "pemasukan" d = true /\ ~ jumlah_typed d) docs).
          { apply Exists_exists. by exists d. }
          destruct (sum_counted_error "pemasukan" docs (NInt 0) Hpem) as (e & He & _).
          simpl in He. congruence. }
        destruct (sum_counted_error "pengeluaran" docs (NInt 0) Hq) as (e & He & Hkind).
        exists e. split; [| done]. simpl in He. by rewrite He.
      - exists e. split; [done |]. by apply (sum_raises _ (NInt 0) e Hp). }
    destruct Hraise as (e & -> & [-> | ->]); (split; [| done]); [by left | by right].
Qed.

(** *** The order and the fields of the listed records *)








(** X4. Listing changes nothing but the identifier: every returned record
    comes from a store record with which it agrees on every field other
    than [id] and [_id], and a store record that has no [_id] is listed with
    the [id] "None". *)
Theorem list_keeps_other_fields db limit tipe n t docs items :
  validate_limit limit = Ok n ->
  validate_tipe_query tipe = Ok t ->
  get_documents db COLLECTION (list_filter t) (Some n) = Ok docs ->
  GET_transactions db limit tipe = Ok items ->
  length items = length docs /\
  forall item, item ∈ items ->
    exists d, d ∈ docs /\
      (forall k, k <> "id" -> k <> "_id" -> item !! k = d !! k) /\
      (d !! "_id" = None -> item !! "id" = Some (PyStr "None")).
Proof.
  intros Hn Ht Hget. rewrite (get_eval _ _ _ _ _ Hn Ht).
  unfold list_transactions. rewrite Hget. simpl.
  destruct (sorted_reverse docs sort_key) as [ys|e] eqn:Hsort; [| done].
  simpl. intros [= <-]. apply sorted_reverse_perm in Hsort. split.
  - by rewrite length_map, Hsort.
  - intros item Hitem. change (item ∈ normalize <$> ys) in Hitem.
    apply list_elem_of_fmap in Hitem as (d & -> & Hd). rewrite Hsort in Hd.
    exists d. split; [done |]. unfold normalize. split.
    + intros k Hk Hk'. by rewrite lookup_delete_ne, lookup_insert_ne.
    + intros Hnone. rewrite lookup_delete_ne by done. rewrite lookup_insert_eq.
      unfold dict_get. by rewrite Hnone.
Qed.


(** *** What reaches the store from a list request *)

(** X5. The list endpoint queries the store only with a limit between 1
    and 500 (100 when none is given) and with a filter that is empty (no
    [tipe] given) or holds exactly the requested [tipe], one of the two
    literals; when a parameter fails validation the request ends in
    ValidationError, whatever the store would have answered. *)
Theorem list_query_sound db limit tipe :
  (forall n t,
     validate_limit limit = Ok n -> validate_tipe_query tipe = Ok t ->
     1 <= n <= 500 /\
     (limit = None -> n = 100) /\
     ((tipe = None /\ list_filter t = ∅) \/
      (exists s, tipe = Some s /\ (s = "pemasukan" \/ s = "pengeluaran") /\
                 list_filter t = {["tipe" := PyStr s]})) /\
     GET_transactions db limit tipe =
       (docs <- get_documents db COLLECTION (list_filter t) (Some n) ;;
        docs_sorted <- sorted_reverse docs sort_key ;;
        Ok (map normalize docs_sorted))) /\
  (forall e, validate_limit limit = Raise e \/ validate_tipe_query tipe = Raise e ->
     GET_transactions db limit tipe = Raise RequestValidationError).
Proof.
  split.
  - intros n t Hn Ht. rewrite (get_eval _ _ _ _ _ Hn Ht).
    split; [| split; [| split; [| done]]].
    + unfold validate_limit in Hn. destruct limit as [s|].
      * destruct (int_of_str s) as [m|]; [| done].
        destruct (1 <=? m) eqn:H1; destruct (m <=? 500) eqn:H2; simpl in Hn; try done.
        injection Hn as <-. apply Z.leb_le in H1, H2. lia.
      * injection Hn as <-. lia.
    + intros ->. by injection Hn as <-.
    + unfold validate_tipe_query in Ht. destruct tipe as [s|].
      * right. exists s. destruct (tipe_pattern s) eqn:Hpat; [| done].
        injection Ht as <-. unfold tipe_pattern in Hpat.
        apply orb_true_iff in Hpat. rewrite !String.eqb_eq in Hpat.
        split; [done | split; [done |]].
        by destruct Hpat as [-> | ->].
      * left. by injection Ht as <-.
  - intros e He. unfold GET_transactions.
    assert (Hlim : forall e', validate_limit limit = Raise e' -> e' = RequestValidationError).
    { intros e'. unfold validate_limit. destruct limit as [s|]; [| done].
      destruct (int_of_str s) as [m|]; [| congruence].
      destruct ((1 <=? m) && (m <=? 500)); congruence. }
    assert (Htip : forall e', validate_tipe_query tipe = Raise e' -> e' = RequestValidationError).
    { intros e'. unfold validate_tipe_query. destruct tipe as [s|]; [| done].
      destruct (tipe_pattern s); congruence. }
    destruct (validate_limit limit) as [n|e1] eqn:Hn; simpl.
    + destruct He as [He | He]; [done |].
      rewrite He. simpl. by rewrite (Htip e He).
    + by rewrite (Hlim e1 eq_refl).
Qed.

(** *** What a delete does to the database *)

Lemma remove_first_split filt coll coll' :
  remove_first filt coll = Some coll' ->
  exists pre d post,
    coll = (pre ++ d :: post)%list /\ matches filt d = true /\
    Forall (fun d' => matches filt d' = false) pre /\ coll' = (pre ++ post)%list.
Proof.
  revert coll'. induction coll as [|d coll IH]; intros coll'; simpl; [done |].
  destruct (matches filt d) eqn:Hm.
  - intros [= <-]. exists [], d, coll.
    split; [done | split; [done | split; [constructor | done]]].
  - destruct (remove_first filt coll) as [c|]; [| done].
    simpl. intros [= <-].
    destruct (IH c eq_refl) as (pre & d0 & post & -> & Hd0 & Hpre & ->).
    exists (d :: pre), d0, post.
    split; [done | split; [done | split; [by constructor | done]]].
Qed.

Lemma matches_id_false v (d : doc) :
  matches {["_id" := v]} d = false <-> d !! "_id" <> Some v.
Proof.
  rewrite <- matches_id. destruct (matches _ d); split; congruence.
Qed.

(** X6. A delete that answers success was sent by the admin to a live
    database with an id that parses; it removed exactly one document, the
    first of the collection whose [_id] is that ObjectId, and left every
    other document, in order, and every other collection as they were. *)
Theorem delete_success_removes_one env db tx_id tok out :
  (DELETE_transactions env db tx_id tok).1 = Ok out ->
  is_admin env tok = true /\
  out = {["message" := "Transaksi dihapus"]} /\
  exists base oid pre d post,
    db = Some base /\ ObjectId tx_id = Ok oid /\
    collection base COLLECTION = (pre ++ d :: post)%list /\
    d !! "_id" = Some (PyObjectId oid) /\
    Forall (fun d' : doc => d' !! "_id" <> Some (PyObjectId oid)) pre /\
    (DELETE_transactions env db tx_id tok).2
      = Some (<[COLLECTION := (pre ++ post)%list]> base) /\
    (forall name, name <> COLLECTION ->
       collection (<[COLLECTION := (pre ++ post)%list]> base) name = collection base name).
Proof.
  unfold DELETE_transactions, delete_transaction, delete_one.
  destruct (is_admin env tok) eqn:Hadm; simpl; [| done].
  destruct db as [base|]; [| done].
  destruct (ObjectId tx_id) as [oid|e] eqn:Hoid; [| done].
  destruct (remove_first _ _) as [coll'|] eqn:Hrm; simpl; [| done].
  intros [= <-]. split; [done | split; [done |]].
  apply remove_first_split in Hrm as (pre & d & post & Hcoll & Hd & Hpre & ->).
  exists base, oid, pre, d, post.
  split; [done | split; [done | split; [done | split; [by apply matches_id |]]]].
  split; [| split; [done |]].
  - eapply Forall_impl; [exact Hpre |]. intros d'. apply matches_id_false.
  - intros name Hname. unfold collection. by rewrite lookup_insert_ne.
Qed.

(** X7. A delete that is answered Forbidden, NotFound, with the handler's
    own "Database tidak tersedia", or with the [InvalidId] of an id that
    does not parse, leaves the database exactly as it was. *)
Theorem delete_failure_changes_nothing env db tx_id tok e :
  (DELETE_transactions env db tx_id tok).1 = Raise e ->
  e = forbidden \/ e = not_found \/
  e = HTTPException 500 "Database tidak tersedia" \/ e = InvalidId ->
  (DELETE_transactions env db tx_id tok).2 = db.
Proof.
  unfold DELETE_transactions, delete_transaction, delete_one. intros He _. revert He.
  destruct (is_admin env tok); simpl; [| done].
  destruct db as [base|]; [| done].
  destruct (ObjectId tx_id) as [oid|e']; [| done].
  by destruct (remove_first _ _).
Qed.

(** X8. Delete keeps [_id] unique within the collection, and after a
    successful delete from a collection with unique ids no document carries
    the deleted id. *)
Theorem delete_keeps_ids_unique env base tx_id tok base' :
  ids_unique (collection base COLLECTION) ->
  (DELETE_transactions env (Some base) tx_id tok).2 = Some base' ->
  ids_unique (collection base' COLLECTION) /\
  (forall out oid,
     (DELETE_transactions env (Some base) tx_id tok).1 = Ok out ->
     ObjectId tx_id = Ok oid ->
     Forall (fun d : doc => d !! "_id" <> Some (PyObjectId oid)) (collection base' COLLECTION)).
Proof.
  intros Huniq. unfold DELETE_transactions, delete_transaction, delete_one.
  destruct (is_admin env tok); simpl; [| by intros [= <-]].
  destruct (ObjectId tx_id) as [oid|e] eqn:Hoid; [| by intros [= <-]].
  destruct (remove_first _ _) as [coll'|] eqn:Hrm; simpl; [| by intros [= <-]].
  intros [= <-]. rewrite collection_insert. split.
  - apply remove_first_split in Hrm as (pre & d & post & Hcoll & _ & _ & ->).
    unfold ids_unique in *. rewrite Hcoll in Huniq.
    rewrite List.map_app in Huniq |- *. simpl in Huniq.
    apply NoDup_app in Huniq as (Hpre & Hdisj & Hpost).
    apply NoDup_cons in Hpost as [_ Hpost].
    apply NoDup_app. split; [done | split; [| done]].
    intros x Hx Hx'. apply (Hdisj x Hx). by right.
  - intros out oid' _ [= <-].
    pose proof (remove_first_unique _ _ _ Huniq Hrm) as Hnone.
    apply remove_first_none in Hnone.
    eapply Forall_impl; [exact Hnone |]. intros d'. apply matches_id_false.
Qed.

(** X9. Delete checks the token, then the database, then the id: without
    the admin's token it answers Forbidden whatever the database and the id
    are; it answers with its own "Database tidak tersedia" (500) exactly
    when the token is the admin's and there is no database, whether or not
    the id would parse; and with the token and a database, an id that does
    not parse ends in [InvalidId]. *)
Theorem delete_checks_in_order env db tx_id tok :
  (is_admin env tok = false ->
   (DELETE_transactions env db tx_id tok).1 = Raise forbidden) /\
  ((DELETE_transactions env db tx_id tok).1
     = Raise (HTTPException 500 "Database tidak tersedia") <->
   is_admin env tok = true /\ db = None) /\
  (is_admin env tok = true -> db <> None -> (forall oid, ObjectId tx_id <> Ok oid) ->
   (DELETE_transactions env db tx_id tok).1 = Raise InvalidId).
Proof.
  unfold DELETE_transactions, delete_transaction, delete_one.
  destruct (is_admin env tok) eqn:Hadm; simpl.
  - split; [done |]. destruct db as [base|]; simpl.
    + destruct (ObjectId tx_id) as [oid|e] eqn:Hoid.
      * split.
        -- destruct (remove_first _ _); simpl; split; try done; by intros [_ ?].
        -- intros _ _ Hbad. by destruct (Hbad oid).
      * assert (e = InvalidId) as ->.
        { unfold ObjectId in Hoid.
          destruct (_ =? _)%nat; [destruct (fromhex _) |]; congruence. }
        simpl. split; [| done]. split; [done | by intros [_ ?]].
    + split; [done |]. intros _ Hdb. by destruct Hdb.
  - split; [done |]. split; [| done]. split; [done | by intros [? _]].
Qed.

(** *** From the list to a delete *)

Lemma lower_hex_digit c :
  is_lower_hex c = true -> is_space c = false /\ hex_digit c = Some c.
Proof.
  unfold is_lower_hex, is_space, hex_digit.
  generalize (N_of_ascii c). intros n H.
  apply orb_true_iff in H.
  destruct H as [H | H]; apply andb_true_iff in H as [H1 H2];
    apply N.leb_le in H1, H2; split.
  - apply orb_false_iff. split; [apply N.eqb_neq; lia |].
    apply andb_false_iff. right. apply N.leb_gt. lia.
  - rewrite (proj2 (N.leb_le 48 n)), (proj2 (N.leb_le n 57)) by lia. done.
  - apply orb_false_iff. split; [apply N.eqb_neq; lia |].
    apply andb_false_iff. right. apply N.leb_gt. lia.
  - rewrite (proj2 (N.leb_le 48 n)) by lia.
    rewrite (proj2 (N.leb_gt n 57)) by lia. simpl.
    rewrite (proj2 (N.leb_le 97 n)), (proj2 (N.leb_le n 102)) by lia. done.
Qed.

Lemma fromhex_lower (m : nat) : forall l : list ascii,
  length l = (2 * m)%nat -> forallb is_lower_hex l = true -> fromhex l = Some l.
Proof.
  induction m as [|m IH]; intros l Hlen Hall.
  - by destruct l.
  - destruct l as [|c [|c' r]]; simpl in Hlen; try lia.
    simpl in Hall. apply andb_true_iff in Hall as [Hc Hall].
    apply andb_true_iff in Hall as [Hc' Hall].
    destruct (lower_hex_digit c Hc) as [Hsp Hhex].
    destruct (lower_hex_digit c' Hc') as [_ Hhex'].
    simpl. rewrite Hsp, Hhex, Hhex'. rewrite (IH r); [done | lia | done].
Qed.

Lemma length_list_ascii s : length (list_ascii_of_string s) = String.length s.
Proof. induction s as [|c s IH]; simpl; [done | by rewrite IH]. Qed.

Lemma ObjectId_wf hex : oid_wf hex = true -> ObjectId hex = Ok hex.
Proof.
  unfold oid_wf, ObjectId. intros H. apply andb_true_iff in H as [Hlen Hall].
  rewrite Hlen. apply Nat.eqb_eq in Hlen.
  rewrite (fromhex_lower 12); [| by rewrite length_list_ascii | done].
  by rewrite string_of_list_ascii_of_string.
Qed.

(** X10. The [id] the list endpoint shows for a stored record whose [_id]
    is an ObjectId is accepted by the delete endpoint: sent back with the
    admin's token it parses to the same ObjectId, the delete answers
    success, and when ids are unique the collection then holds no document
    with that [_id]. *)
Theorem listed_id_deletes env base tok d hex s :
  is_admin env tok = true ->
  d ∈ collection base COLLECTION ->
  d !! "_id" = Some (PyObjectId hex) ->
  oid_wf hex = true ->
  normalize d !! "id" = Some (PyStr s) ->
  ObjectId s = Ok hex /\
  (DELETE_transactions env (Some base) s tok).1 = Ok {["message" := "Transaksi dihapus"]} /\
  (ids_unique (collection base COLLECTION) ->
   exists base',
     (DELETE_transactions env (Some base) s tok).2 = Some base' /\
     Forall (fun d' : doc => d' !! "_id" <> Some (PyObjectId hex))
            (collection base' COLLECTION)).
Proof.
  intros Hadm Hin Hid Hwf Hs.
  assert (s = hex) as ->.
  { unfold normalize in Hs. rewrite lookup_delete_ne in Hs by done.
    rewrite lookup_insert_eq in Hs. unfold dict_get in Hs. rewrite Hid in Hs.
    simpl in Hs. congruence. }
  pose proof (ObjectId_wf hex Hwf) as Hoid.
  split; [done |].
  rewrite (delete_eval _ _ _ _ _ Hadm Hoid).
  destruct (remove_first_some {["_id" := PyObjectId hex]} _ d Hin) as [coll' Hrm].
  { by apply matches_id. }
  rewrite Hrm. simpl. split; [done |].
  intros Huniq. eexists. split; [done |]. rewrite collection_insert.
  pose proof (remove_first_unique _ _ _ Huniq Hrm) as Hnone.
  apply remove_first_none in Hnone.
  eapply Forall_impl; [exact Hnone |]. intros d'. apply matches_id_false.
Qed.


(** *** The two models of a transaction *)

(** X11. Dumping a record and building [schemas.Transaction] from the dump
    gives the record back exactly when its [jumlah] is [>= 0] (a float
    comparison, false of a NaN) and its [tipe] is one of the two literals, and never gives a different record;
    so the handler's second validation accepts every record the first one
    built. *)
Theorem dump_then_schema tx :
  (TransactionSchema (model_dump tx) = Ok tx <->
   float_ge0 (jumlah tx) = true /\
   (tipe tx = "pemasukan" \/ tipe tx = "pengeluaran")) /\
  (forall tx', TransactionSchema (model_dump tx) = Ok tx' -> tx' = tx) /\
  (forall b, validate_TransactionIn b = Ok tx -> TransactionSchema (model_dump tx) = Ok tx).
Proof.
  assert (Heval : TransactionSchema (model_dump tx) =
                  if float_ge0 (jumlah tx) && is_tipe_literal (tipe tx)
                  then Ok tx else Raise ValidationError).
  { destruct tx as [t p k ket j ty]. unfold TransactionSchema, model_dump. simpl.
    repeat (rewrite lookup_insert_eq || rewrite lookup_insert_ne by done).
    assert (Hp : dumped_opt_str (Some (py_opt_str p)) = Some p) by (by destruct p).
    assert (Hk : dumped_opt_str (Some (py_opt_str k)) = Some k) by (by destruct k).
    rewrite Hp, Hk. done. }
  split; [| split].
  - rewrite Heval. destruct (float_ge0 (jumlah tx)) eqn:Hge; simpl.
    + destruct (is_tipe_literal (tipe tx)) eqn:Hlit.
      * apply is_tipe_literal_spec in Hlit. done.
      * split; [done |]. intros [_ Hlit']. apply is_tipe_literal_spec in Hlit'. congruence.
    + split; [done |]. intros [Hge' _]. done.
  - intros tx'. rewrite Heval. destruct (_ && _); congruence.
  - intros b Hb. by apply (schema_accepts b).
Qed.

(** *** What the body validation looks at *)

(** X12. A field of the body that is not one of the six fields of the
    model is ignored: adding it changes neither the validated record nor
    the answer of the create endpoint. *)
Theorem create_ignores_unknown_fields env db f k v tok :
  k ∉ model_fields ->
  validate_TransactionIn (BodyObject (<[k := v]> f)) = validate_TransactionIn (BodyObject f) /\
  POST_transactions env db (BodyObject (<[k := v]> f)) tok
    = POST_transactions env db (BodyObject f) tok.
Proof.
  intros Hk.
  assert (Hval : validate_TransactionIn (BodyObject (<[k := v]> f))
                 = validate_TransactionIn (BodyObject f)).
  { unfold validate_TransactionIn, model_fields in *.
    rewrite !lookup_insert_ne; [done | | | | | |];
      intros ->; apply Hk; repeat (first [by left | right]). }
  split; [exact Hval |]. unfold POST_transactions. by rewrite Hval.
Qed.

(** X13. For the optional fields [penghuni] and [kamar], a null value and
    an absent field are the same to the validation, and both give [None]
    in the validated record. *)
Theorem optional_null_is_absent f :
  validate_TransactionIn (BodyObject (<["penghuni" := JNull]> f))
    = validate_TransactionIn (BodyObject (delete "penghuni" f)) /\
  validate_TransactionIn (BodyObject (<["kamar" := JNull]> f))
    = validate_TransactionIn (BodyObject (delete "kamar" f)) /\
  (forall tx, validate_TransactionIn (BodyObject (delete "penghuni" f)) = Ok tx ->
     penghuni tx = None) /\
  (forall tx, validate_TransactionIn (BodyObject (delete "kamar" f)) = Ok tx ->
     kamar tx = None).
Proof.
  split; [| split; [| split]].
  - unfold validate_TransactionIn.
    rewrite lookup_insert_eq, lookup_delete_eq.
    by rewrite !lookup_insert_ne, !lookup_delete_ne.
  - unfold validate_TransactionIn.
    rewrite lookup_insert_eq, lookup_delete_eq.
    by rewrite !lookup_insert_ne, !lookup_delete_ne.
  - intros tx Htx. apply validate_ok in Htx as (f' & [= <-] & _ & Hp & _).
    rewrite lookup_delete_eq in Hp. simpl in Hp. congruence.
  - intros tx Htx. apply validate_ok in Htx as (f' & [= <-] & _ & _ & Hk & _).
    rewrite lookup_delete_eq in Hk. simpl in Hk. congruence.
Qed.

(** *** The diagnostic route *)

Ltac lookup_response :=
  repeat (rewrite lookup_insert_eq || rewrite lookup_insert_ne by done).

(** X14. Whatever the database object is and does, the diagnostic response
    has the same six keys, and its [database_url] and [database_name] say
    only whether DATABASE_URL and DATABASE_NAME are set to a non-empty
    value: the name the database object reports never reaches the
    response. *)
Theorem test_database_reports_env env db :
  test_database env db !! "database_url"
    = Some (RStr (set_or_not (getenv env "DATABASE_URL"))) /\
  test_database env db !! "database_name"
    = Some (RStr (set_or_not (getenv env "DATABASE_NAME"))) /\
  test_database env db !! "backend" = Some (RStr "✅ Running") /\
  dom (test_database env db)
    = ({["backend"; "database"; "database_url"; "database_name";
         "connection_status"; "collections"]} : gset string).
Proof.
  unfold test_database.
  split; [| split; [| split]].
  - by lookup_response.
  - by lookup_response.
  - destruct db as [base|]; [destruct (db_name base) as [name|e];
      [destruct (list_collection_names base) as [names|e] |] |];
      by lookup_response.
  - destruct db as [base|]; [destruct (db_name base) as [name|e];
      [destruct (list_collection_names base) as [names|e] |] |];
      rewrite !dom_insert_L, dom_empty_L; set_solver.
Qed.

(** X15. The diagnostic response lists at most ten collections: the first
    ten names the database returns, and none when there is no database or a
    call on the database object raises. *)
Theorem test_database_collections env db :
  exists l,
    test_database env db !! "collections" = Some (RList l) /\
    (length l <= 10)%nat /\
    (forall base name names,
       db = Some base -> db_name base = Ok name ->
       list_collection_names base = Ok names -> l = take 10 names) /\
    (db = None -> l = []) /\
    (forall base e, db = Some base ->
       db_name base = Raise e \/ list_collection_names base = Raise e -> l = []).
Proof.
  unfold test_database.
  destruct db as [base|].
  - destruct (db_name base) as [name|e] eqn:Hname.
    + destruct (list_collection_names base) as [names|e] eqn:Hnames.
      * exists (take 10 names). lookup_response.
        split; [done | split; [rewrite length_take; lia |]].
        split; [| split; [done |]].
        -- intros b n ns [= <-]. congruence.
        -- intros b e [= <-] [? | ?]; congruence.
      * exists []. lookup_response.
        split; [done | split; [simpl; lia |]].
        split; [| split; [done | done]].
        intros b n ns [= <-]. congruence.
    + exists []. lookup_response.
      split; [done | split; [simpl; lia |]].
      split; [| split; [done | done]].
      intros b n ns [= <-]. congruence.
  - exists []. lookup_response.
    split; [done | split; [simpl; lia |]].
    split; [done | split; [done |]]. done.
Qed.

(** X16. The diagnostic response says "Connected" exactly when there is a
    database object whose name could be read, and "Connected & Working"
    exactly when, in addition, its collections could be listed; without a
    database it says "Available but not initialized" and "Not Connected". *)
Theorem test_database_status env db :
  (test_database env db !! "connection_status" = Some (RStr "Connected") <->
   exists base name, db = Some base /\ db_name base = Ok name) /\
  (test_database env db !! "database" = Some (RStr "✅ Connected & Working") <->
   exists base name names,
     db = Some base /\ db_name base = Ok name /\ list_collection_names base = Ok names) /\
  (db = None ->
   test_database env db !! "database" = Some (RStr "⚠️ Available but not initialized") /\
   test_database env db !! "connection_status" = Some (RStr "Not Connected")).
Proof.
  unfold test_database.
  destruct db as [base|].
  - destruct (db_name base) as [name|e] eqn:Hname.
    + destruct (list_collection_names base) as [names|e] eqn:Hnames; lookup_response.
      * split; [| split; [| done]].
        -- split; [| done]. intros _. by exists base, name.
        -- split; [| done]. intros _. by exists base, name, names.
      * split; [| split; [| done]].
        -- split; [| done]. intros _. by exists base, name.
        -- split; [simpl; intros [=] |].
           intros (b & n & ns & [= <-] & _ & ?). congruence.
    + lookup_response. split; [| split; [| done]].
      * split; [done |]. intros (b & n & [= <-] & ?). congruence.
      * split; [simpl; intros [=] |].
        intros (b & n & ns & [= <-] & ? & _). congruence.
  - lookup_response. split; [| split; [| done]].
    + split; [done |]. intros (b & n & ? & _). done.
    + split; [done |]. intros (b & n & ns & ? & _). done.
Qed.


(** *** Exactly which bodies are refused *)

(** X17. A JSON object is refused by the create endpoint's validation
    exactly when it is an invalid record (negative [jumlah], [tipe] not a
    literal, required field missing or not accepted by its type, which
    includes an integer [jumlah] beyond the largest float), or its [jumlah]
    converts to a float that is not [>= 0] (a NaN), or one of the optional
    fields [penghuni], [kamar] holds something other than a string or null;
    every other object is accepted. *)
Theorem body_refused_exactly f :
  validate_TransactionIn (BodyObject f) = Raise RequestValidationError <->
  invalid_record f \/
  (exists x, validate_float (f !! "jumlah") = Some x /\ float_ge0 x = false) \/
  validate_opt_str (f !! "penghuni") = None \/
  validate_opt_str (f !! "kamar") = None.
Proof.
  split.
  - unfold validate_TransactionIn.
    destruct (validate_datetime (f !! "tanggal")) as [t|] eqn:Ht;
      [| intros _; left; by apply ill_typed_tanggal].
    destruct (validate_opt_str (f !! "penghuni")) as [p|] eqn:Hp;
      [| intros _; right; right; by left].
    destruct (validate_opt_str (f !! "kamar")) as [k|] eqn:Hk;
      [| intros _; right; right; by right].
    destruct (validate_str (f !! "keterangan")) as [ket|] eqn:Hket.
    + destruct (validate_jumlah (f !! "jumlah")) as [j|] eqn:Hj.
      * destruct (validate_tipe (f !! "tipe")) as [ty|] eqn:Hty; [done |].
        intros _. left. apply tipe_not_literal; intros Heq;
          rewrite Heq in Hty; done.
      * intros _. unfold validate_jumlah in Hj.
        destruct (validate_float (f !! "jumlah")) as [x|] eqn:Hx.
        -- destruct (float_ge0 x) eqn:Hge; [done |].
           right. left. by exists x.
        -- left. by apply ill_typed_jumlah.
    + intros _. left. apply ill_typed_keterangan. intros s Hs.
      rewrite Hs in Hket. done.
  - intros [Hinv | [(x & Hx & Hge) | [Hp | Hk]]].
    + by apply invalid_rejected.
    + unfold validate_TransactionIn, validate_jumlah. rewrite Hx, Hge.
      destruct (validate_datetime (f !! "tanggal")); [| done].
      destruct (validate_opt_str (f !! "penghuni")); [| done].
      destruct (validate_opt_str (f !! "kamar")); [| done].
      by destruct (validate_str (f !! "keterangan")).
    + unfold validate_TransactionIn. rewrite Hp.
      by destruct (validate_datetime (f !! "tanggal")).
    + unfold validate_TransactionIn. rewrite Hk.
      destruct (validate_datetime (f !! "tanggal")); [| done].
      by destruct (validate_opt_str (f !! "penghuni")).
Qed.

(** *** Exactly when the list endpoint fails on its own *)

Lemma py_lt_kind a b :
  (same_kind a b = true -> exists r, py_lt a b = Ok r) /\
  (same_kind a b = false -> py_lt a b = Raise TypeError).
Proof. destruct a, b; simpl; split; try done; by eexists. Qed.

Lemma same_kind_trans a b c :
  same_kind a b = true -> same_kind b c = true -> same_kind a c = true.
Proof. by destruct a, b, c. Qed.

Lemma same_kind_sym a b : same_kind a b = same_kind b a.
Proof. by destruct a, b. Qed.

Lemma same_kind_refl a : truthy a = true -> same_kind a a = true.
Proof. by destruct a. Qed.

Lemma sort_key_truthy d : truthy (sort_key d) = true.
Proof.
  unfold sort_key, py_or.
  destruct (truthy (dict_get d "tanggal")) eqn:Ht; rewrite ?Ht; [done |].
  by destruct (truthy (dict_get d "created_at")) eqn:Hc; rewrite ?Hc.
Qed.

Lemma insert_desc_kind {A} kx (x : A) s :
  Forall (fun p => same_kind kx p.1 = true) s -> exists r, insert_desc kx x s = Ok r.
Proof.
  induction s as [|[ky y] s IH]; intros Hall; [by eexists |].
  inversion Hall as [|? ? Hky Hs]; subst. simpl in *.
  destruct (proj1 (py_lt_kind kx ky) Hky) as [[|] ->]; simpl; [| by eexists].
  destruct (IH Hs) as [r ->]. by eexists.
Qed.

Lemma insert_desc_head {A} kx (x : A) ky y s r :
  insert_desc kx x ((ky, y) :: s) = Ok r -> same_kind kx ky = true.
Proof.
  simpl. destruct (same_kind kx ky) eqn:Hk; [done |].
  by rewrite (proj2 (py_lt_kind kx ky) Hk).
Qed.

Lemma desc_raises_type_error {A} (xs : list (pyvalue * A)) e :
  sort_desc xs = Raise e -> e = TypeError.
Proof.
  induction xs as [|[kx x] xs IH]; simpl; [done |].
  destruct (sort_desc xs) as [s|e']; simpl; [| intros [= <-]; by apply IH].
  clear IH. induction s as [|[ky y] s IHs]; simpl; [done |].
  destruct (py_lt kx ky) as [[|]|e'] eqn:Hlt; simpl; [| done |].
  - destruct (insert_desc kx x s) as [r|e']; simpl; [done |].
    intros [= <-]. by apply IHs.
  - intros [= <-]. destruct kx, ky; simpl in Hlt; congruence.
Qed.

Lemma sort_desc_kinds {A} (xs : list (pyvalue * A)) :
  Forall (fun p => truthy p.1 = true) xs ->
  ((exists s, sort_desc xs = Ok s) <->
   forall p q, p ∈ xs -> q ∈ xs -> same_kind p.1 q.1 = true).
Proof.
  induction xs as [|[kx x] xs IH]; intros Htr.
  - split; [intros _ p q Hp; by apply elem_of_nil in Hp | by eexists].
  - inversion Htr as [|? ? Hkx Htr']; subst. simpl in Hkx.
    specialize (IH Htr'). simpl. split.
    + intros [r Hr].
      destruct (sort_desc xs) as [s|e] eqn:Hs; simpl in Hr; [| done].
      pose proof (proj1 IH (ex_intro _ s eq_refl)) as Hpair.
      pose proof (sort_desc_perm _ _ Hs) as Hperm.
      assert (Hx : forall q, q ∈ xs -> same_kind kx q.1 = true).
      { intros q Hq. destruct s as [|[ky y] s'].
        - rewrite <- Hperm in Hq. by apply elem_of_nil in Hq.
        - apply insert_desc_head in Hr.
          apply (same_kind_trans _ ky); [done |].
          apply (Hpair (ky, y) q); [| done]. rewrite <- Hperm. by left. }
      intros p q Hp Hq.
      apply elem_of_cons in Hp as [-> | Hp]; apply elem_of_cons in Hq as [-> | Hq]; simpl.
      * by apply same_kind_refl.
      * by apply Hx.
      * rewrite same_kind_sym. by apply Hx.
      * by apply Hpair.
    + intros Hpair.
      destruct (proj2 IH) as [s Hs].
      { intros p q Hp Hq. apply Hpair; by right. }
      rewrite Hs. simpl. apply insert_desc_kind.
      rewrite (sort_desc_perm _ _ Hs). apply Forall_forall. intros q Hq.
      apply (Hpair (kx, x) q); [by left | by right].
Qed.

(** X18. Once the query is valid and the store has answered, the list
    endpoint returns exactly when the sort keys of any two returned records
    are of one kind (two date-times, two strings, two numbers); otherwise,
    for instance with a text [tanggal] beside a date-time, the sort raises
    [TypeError] and the request ends in a server error. *)
Theorem list_fails_on_mixed_keys db limit tipe n t docs :
  validate_limit limit = Ok n ->
  validate_tipe_query tipe = Ok t ->
  get_documents db COLLECTION (list_filter t) (Some n) = Ok docs ->
  ((exists items, GET_transactions db limit tipe = Ok items) <->
   forall a b, a ∈ docs -> b ∈ docs -> same_kind (sort_key a) (sort_key b) = true) /\
  ((exists a b, a ∈ docs /\ b ∈ docs /\ same_kind (sort_key a) (sort_key b) = false) ->
   GET_transactions db limit tipe = Raise TypeError /\
   http_status 200 (GET_transactions db limit tipe) = 500).
Proof.
  intros Hn Ht Hget. rewrite (get_eval _ _ _ _ _ Hn Ht).
  unfold list_transactions. rewrite Hget. simpl. unfold sorted_reverse.
  pose proof (sort_desc_kinds (map (fun x => (sort_key x, x)) docs)) as Hk.
  assert (Htr : Forall (fun p : pyvalue * doc => truthy p.1 = true)
                       (map (fun x => (sort_key x, x)) docs)).
  { apply Forall_fmap, Forall_forall. intros d _. apply sort_key_truthy. }
  specialize (Hk Htr).
  assert (Hpairs :
    (forall p q : pyvalue * doc,
       p ∈ map (fun x => (sort_key x, x)) docs -> q ∈ map (fun x => (sort_key x, x)) docs ->
       same_kind p.1 q.1 = true) <->
    (forall a b, a ∈ docs -> b ∈ docs -> same_kind (sort_key a) (sort_key b) = true)).
  { split.
    - intros H a b Ha Hb.
      apply (H (sort_key a, a) (sort_key b, b));
        change (map (fun x => (sort_key x, x)) docs)
          with ((fun x => (sort_key x, x)) <$> docs);
        apply list_elem_of_fmap; by eexists.
    - intros H p q Hp Hq.
      change (map (fun x => (sort_key x, x)) docs)
        with ((fun x => (sort_key x, x)) <$> docs) in Hp, Hq.
      apply list_elem_of_fmap in Hp as (a & -> & Ha).
      apply list_elem_of_fmap in Hq as (b & -> & Hb). by apply H. }
  rewrite Hpairs in Hk. split.
  - rewrite <- Hk. split.
    + intros [items Hitems].
      destruct (sort_desc _) as [s|e]; [by eexists | done].
    + intros [s ->]. simpl. by eexists.
  - intros (a & b & Ha & Hb & Hab).
    destruct (sort_desc _) as [s|e] eqn:Hs; simpl.
    + rewrite (proj1 Hk (ex_intro _ s eq_refl) a b Ha Hb) in Hab. done.
    + by rewrite (desc_raises_type_error _ _ Hs).
Qed.

End Routes.

(** ** The theorems at sample inputs *)

Lemma demo_docs_jumlah_typed : Forall jumlah_typed Demo.docs.
Proof.
  unfold Demo.docs.
  apply Forall_cons_2; [right; right; by eexists |].
  apply Forall_cons_2; [right; right; by eexists |].
  apply Forall_cons_2; [by left |].
  apply Forall_nil_2.
Qed.

Lemma demo_docs_jumlah_float : Forall jumlah_float Demo.docs.
Proof.
  unfold Demo.docs.
  apply Forall_cons_2; [right; by eexists |].
  apply Forall_cons_2; [right; by eexists |].
  apply Forall_cons_2; [by left |].
  apply Forall_nil_2.
Qed.

Lemma demo_docs_dates_typed : Forall dates_typed Demo.docs.
Proof.
  unfold Demo.docs.
  apply Forall_cons_2; [split; [right; right; by exists 5%N | by left] |].
  apply Forall_cons_2; [split; [by left | right; right; by exists 9%N] |].
  apply Forall_cons_2; [split; by left |].
  apply Forall_nil_2.
Qed.

Lemma stats_totals_witness :
  MemoryStore.get_documents (Some Demo.base) COLLECTION ∅ None = Ok Demo.docs /\
  sums_left_to_right py_sum /\
  Forall jumlah_typed Demo.docs /\
  GET_stats py_sum MemoryStore.get_documents (Some Demo.base) =
    Ok {| pemasukan := PyFloat (float_of_Z 50000);
          pengeluaran := PyFloat (float_of_Z 20000);
          saldo := PyFloat (float_of_Z 30000) |}.
Proof.
  split; [reflexivity | split; [by intros xs | split; [exact demo_docs_jumlah_typed |]]].
  destruct (stats_totals py_sum MemoryStore.get_documents (Some Demo.base) Demo.docs
              eq_refl) as (_ & Htotal & _).
  rewrite (Htotal (fun xs => eq_refl) demo_docs_jumlah_typed). vm_compute. reflexivity.
Defined.

(** A malformed body is answered 422 although the token is wrong: the body
    is checked before the handler looks at the token. *)
Lemma create_malformed_wrong_token :
  token_invalid Demo.env (Some "salah") /\
  (POST_transactions MemoryStore.lax_float MemoryStore.lax_datetime
     MemoryStore.create_document Demo.env (Some Demo.base)
     (BodyObject Demo.fields_empty) (Some "salah")).1 = Raise RequestValidationError /\
  http_status 201
    (POST_transactions MemoryStore.lax_float MemoryStore.lax_datetime
       MemoryStore.create_document Demo.env (Some Demo.base)
       (BodyObject Demo.fields_empty) (Some "salah")).1 <> 403.
Proof.
  split; [right; right; discriminate | split; [reflexivity | discriminate]].
Qed.

Lemma mutation_without_token_witness :
  token_invalid Demo.env (Some "salah") /\
  DELETE_transactions Demo.env (Some Demo.base) Demo.oid1 (Some "salah")
    = (Raise forbidden, Some Demo.base) /\
  POST_transactions MemoryStore.lax_float MemoryStore.lax_datetime
    MemoryStore.create_document Demo.env (Some Demo.base)
    (BodyObject Demo.fields_ok) (Some "salah") = (Raise forbidden, Some Demo.base).
Proof.
  assert (Hinv : token_invalid Demo.env (Some "salah")) by (right; right; discriminate).
  pose proof (mutation_without_token MemoryStore.lax_float MemoryStore.lax_datetime
                MemoryStore.create_document Demo.env (Some Demo.base) (Some "salah") Hinv)
    as (Hdel & Hpost & _).
  split; [exact Hinv | split; [apply Hdel |]].
  eapply Hpost. reflexivity.
Defined.

(** With no secret configured a malformed create request is still answered
    422, not 403. *)
Lemma create_malformed_unset_secret :
  getenv Demo.env_unset "ADMIN_TOKEN" = None /\
  (POST_transactions MemoryStore.lax_float MemoryStore.lax_datetime
     MemoryStore.create_document Demo.env_unset (Some Demo.base)
     BodyMalformed None).1 = Raise RequestValidationError /\
  http_status 201
    (POST_transactions MemoryStore.lax_float MemoryStore.lax_datetime
       MemoryStore.create_document Demo.env_unset (Some Demo.base)
       BodyMalformed None).1 <> 403.
Proof.
  split; [reflexivity | split; [reflexivity | discriminate]].
Qed.

Lemma unset_secret_denies_witness :
  getenv Demo.env_unset "ADMIN_TOKEN" = None /\
  is_admin Demo.env_unset (Some "rahasia") = false /\
  DELETE_transactions Demo.env_unset (Some Demo.base) Demo.oid1 (Some "rahasia")
    = (Raise forbidden, Some Demo.base).
Proof.
  pose proof (unset_secret_denies MemoryStore.lax_float MemoryStore.lax_datetime
                MemoryStore.create_document Demo.env_unset (Some "rahasia") eq_refl)
    as (Hadm & Hdel & _).
  split; [reflexivity | split; [exact Hadm | apply Hdel]].
Defined.

Lemma list_sorted_descending_witness :
  validate_limit MemoryStore.int_of_str None = Ok 100 /\
  validate_tipe_query None = Ok None /\
  MemoryStore.get_documents (Some Demo.base) COLLECTION (list_filter None) (Some 100)
    = Ok Demo.docs /\
  Forall dates_typed Demo.docs /\
  exists items,
    GET_transactions MemoryStore.str_datetime MemoryStore.str_float MemoryStore.int_of_str
      MemoryStore.get_documents (Some Demo.base) None None = Ok items /\
    items ≡ₚ map (normalize MemoryStore.str_datetime MemoryStore.str_float) Demo.docs /\
    forall (i j : nat) a b,
      (i < j)%nat -> items !! i = Some a -> items !! j = Some b ->
      sort_key a = PyDatetime (key_of a) /\
      sort_key b = PyDatetime (key_of b) /\
      (key_of b <= key_of a)%N.
Proof.
  split; [reflexivity | split; [reflexivity | split; [reflexivity |]]].
  split; [exact demo_docs_dates_typed |].
  apply (list_sorted_descending MemoryStore.str_datetime MemoryStore.str_float MemoryStore.int_of_str
           MemoryStore.get_documents (Some Demo.base) None None 100 None Demo.docs);
    [reflexivity | reflexivity | reflexivity | exact demo_docs_dates_typed].
Defined.

Lemma demo_negative_invalid :
  invalid_record MemoryStore.lax_float MemoryStore.lax_datetime Demo.fields_negative.
Proof. apply (negative_jumlah _ _ _ (float_of_Z (-1))); reflexivity. Qed.

Lemma create_validates_witness :
  is_admin Demo.env (Some "rahasia") = true /\
  POST_transactions MemoryStore.lax_float MemoryStore.lax_datetime
    MemoryStore.create_document Demo.env (Some Demo.base)
    (BodyObject Demo.fields_negative) (Some "rahasia")
    = (Raise RequestValidationError, Some Demo.base) /\
  (forall tx,
     validate_TransactionIn MemoryStore.lax_float MemoryStore.lax_datetime
       (BodyObject Demo.fields_ok) = Ok tx -> float_ge0 (jumlah tx) = true).
Proof.
  pose proof (create_validates MemoryStore.lax_float MemoryStore.lax_datetime
                MemoryStore.create_document Demo.env (Some Demo.base) (Some "rahasia")
                eq_refl) as (Hbad & Hgood & _).
  split; [reflexivity | split].
  - apply (Hbad Demo.fields_negative demo_negative_invalid).
  - intros tx Htx. apply (Hgood _ tx Htx).
Defined.

Lemma demo_ids_unique : ids_unique (collection Demo.base COLLECTION).
Proof.
  unfold ids_unique.
  refine (bool_decide_unpack (NoDup (map (fun d => dict_get d "_id")
                                         (collection Demo.base COLLECTION))) _).
  vm_compute. exact I.
Qed.

Lemma delete_not_found_witness :
  is_admin Demo.env (Some "rahasia") = true /\
  (DELETE_transactions Demo.env (Some Demo.base) Demo.oid2 (Some "rahasia")).1
    = Ok {["message" := "Transaksi dihapus"]} /\
  (DELETE_transactions Demo.env
     (DELETE_transactions Demo.env (Some Demo.base) Demo.oid2 (Some "rahasia")).2
     Demo.oid2 (Some "rahasia")).1 = Raise not_found.
Proof.
  pose proof (delete_not_found Demo.env Demo.base Demo.oid2 (Some "rahasia") eq_refl)
    as (_ & _ & Htwice).
  split; [reflexivity |].
  apply (Htwice Demo.oid2 Demo.d2);
    [reflexivity | exact demo_ids_unique | | reflexivity].
  apply list_elem_of_lookup. by exists 1%nat.
Defined.

Lemma list_query_validated_witness :
  MemoryStore.int_of_str "0" = Some 0 /\
  GET_transactions MemoryStore.str_datetime MemoryStore.str_float MemoryStore.int_of_str
    MemoryStore.get_documents (Some Demo.base) (Some "0") None
    = Raise RequestValidationError /\
  GET_transactions MemoryStore.str_datetime MemoryStore.str_float MemoryStore.int_of_str
    MemoryStore.get_documents (Some Demo.base) None (Some "pemasukan ")
    = Raise RequestValidationError.
Proof.
  pose proof (list_query_validated MemoryStore.str_datetime MemoryStore.str_float MemoryStore.int_of_str
                MemoryStore.get_documents (Some Demo.base))
    as (_ & Htipe & _ & Hzero & _).
  split; [reflexivity | split].
  - apply Hzero. reflexivity.
  - apply Htipe; discriminate.
Defined.

Lemma list_items_carry_id_witness :
  validate_limit MemoryStore.int_of_str None = Ok 100 /\
  validate_tipe_query None = Ok None /\
  MemoryStore.get_documents (Some Demo.base) COLLECTION (list_filter None) (Some 100)
    = Ok Demo.docs /\
  Forall dates_typed Demo.docs /\
  exists items,
    GET_transactions MemoryStore.str_datetime MemoryStore.str_float MemoryStore.int_of_str
      MemoryStore.get_documents (Some Demo.base) None None = Ok items /\
    length items = 3%nat /\
    forall item, item ∈ items ->
      item !! "_id" = None /\ exists s, item !! "id" = Some (PyStr s).
Proof.
  split; [reflexivity | split; [reflexivity | split; [reflexivity |]]].
  split; [exact demo_docs_dates_typed |].
  pose proof (list_items_carry_id MemoryStore.str_datetime MemoryStore.str_float MemoryStore.int_of_str
                MemoryStore.get_documents (Some Demo.base) None None 100 None Demo.docs
                eq_refl eq_refl eq_refl) as [Hshape Hreturns].
  destruct (Hreturns demo_docs_dates_typed) as (items & Hitems & Hlen).
  exists items. split; [exact Hitems | split; [exact Hlen |]].
  intros item Hitem.
  destruct (Hshape items Hitems item Hitem) as (Hnone & d & _ & _ & Hid & _).
  split; [exact Hnone | by eexists].
Defined.

Lemma empty_secret_denies_witness :
  getenv Demo.env_empty "ADMIN_TOKEN" = Some "" /\
  is_admin Demo.env_empty (Some "") = false /\
  delete_transaction Demo.env_empty (Some Demo.base) Demo.oid1 (Some "")
    = (Raise forbidden, Some Demo.base).
Proof.
  pose proof (empty_secret_denies MemoryStore.create_document Demo.env_empty (Some "")
                eq_refl) as (Hadm & _ & Hdel & _).
  split; [reflexivity | split; [exact Hadm | apply Hdel]].
Defined.

Lemma demo_unparseable : forall oid, ObjectId "abc" <> Ok oid.
Proof. intros oid. discriminate. Qed.

Lemma delete_unparseable_id_witness :
  is_admin Demo.env (Some "rahasia") = true /\
  (forall oid, ObjectId "abc" <> Ok oid) /\
  DELETE_transactions Demo.env (Some Demo.base) "abc" (Some "rahasia")
    = (Raise InvalidId, Some Demo.base) /\
  http_status 200
    (DELETE_transactions Demo.env (Some Demo.base) "abc" (Some "rahasia")).1 = 500.
Proof.
  pose proof (delete_unparseable_id Demo.env Demo.base "abc" (Some "rahasia")
                eq_refl demo_unparseable) as (Hdel & Hstatus & _).
  split; [reflexivity | split; [exact demo_unparseable | split; [exact Hdel | exact Hstatus]]].
Defined.

(** ** Worked examples *)

(** The specification's example: a valid create with the right token is
    answered 201 with an id, and the stats then report the amount. *)
Example create_then_stats :
  let r := POST_transactions MemoryStore.lax_float MemoryStore.lax_datetime
             MemoryStore.create_document Demo.env (Some ∅)
             (BodyObject Demo.fields_ok) (Some "rahasia") in
  http_status 201 r.1 = 201 /\
  (exists out, r.1 = Ok out /\ out !! "id" = Some (MemoryStore.oid_of_nat 0)) /\
  GET_stats py_sum MemoryStore.get_documents r.2 =
    Ok {| pemasukan := PyFloat (float_of_Z 50000);
          pengeluaran := PyNum 0;
          saldo := PyFloat (float_of_Z 50000) |}.
Proof.
  split; [reflexivity | split; [| vm_compute; reflexivity]].
  eexists. split; reflexivity.
Qed.

(** Float sums round: 2^53 and 1.0 add up to 2^53, and an integer amount
    beyond the largest float is refused by the create endpoint. *)
Example stats_rounds :
  GET_stats py_sum (fun _ _ _ _ => Ok Demo.docs_big) None =
    Ok {| pemasukan := PyFloat (float_of_Z (2 ^ 53));
          pengeluaran := PyNum 0;
          saldo := PyFloat (float_of_Z (2 ^ 53)) |}.
Proof. vm_compute. reflexivity. Qed.

Example float_of_int_rounds :
  float_of_int (2 ^ 53 + 1) = Ok (float_of_Z (2 ^ 53)) /\
  float_of_int (10 ^ 400) = Raise OverflowError.
Proof. split; vm_compute; reflexivity. Qed.

Example create_huge_amount :
  (POST_transactions MemoryStore.lax_float MemoryStore.lax_datetime
     MemoryStore.create_document Demo.env (Some Demo.base)
     (BodyObject Demo.fields_huge) (Some "rahasia"))
  = (Raise RequestValidationError, Some Demo.base).
Proof. vm_compute. reflexivity. Qed.

(** Outside the Transaction shape the aggregation and the sort raise: an
    amount that is text cannot be added, and a text date cannot be compared
    with a date-time. *)
Example stats_text_amount :
  GET_stats py_sum (fun _ _ _ _ => Ok [Demo.d1; Demo.d_text_jumlah]) None = Raise TypeError.
Proof. reflexivity. Qed.

Example list_text_date :
  GET_transactions MemoryStore.str_datetime MemoryStore.str_float MemoryStore.int_of_str
    (fun _ _ _ _ => Ok [Demo.d1; Demo.d_text_tanggal]) None None None = Raise TypeError.
Proof. reflexivity. Qed.

(** Records with equal keys keep the order the store returned them in. *)
Example sorted_reverse_stable :
  sorted_reverse [(1, PyDatetime 2%N); (2, PyDatetime 7%N); (3, PyDatetime 2%N)] snd
  = Ok [(2, PyDatetime 7%N); (1, PyDatetime 2%N); (3, PyDatetime 2%N)].
Proof. reflexivity. Qed.

(** [bytes.fromhex] accepts upper-case digits; a 23-digit string is not an
    ObjectId. *)
Example ObjectId_upper :
  ObjectId "0123456789ABCDEF01234567" = Ok "0123456789abcdef01234567".
Proof. reflexivity. Qed.

Example ObjectId_short : ObjectId "0123456789abcdef0123456" = Raise InvalidId.
Proof. reflexivity. Qed.

(** ** The further properties at sample inputs *)

Lemma is_admin_exactly_witness :
  is_admin Demo.env (Some "rahasia") = true /\ is_admin Demo.env (Some "Rahasia") = false.
Proof.
  split.
  - apply (is_admin_exactly Demo.env (Some "rahasia")). by exists "rahasia".
  - destruct (is_admin Demo.env (Some "Rahasia")) eqn:H; [| done].
    apply (is_admin_exactly Demo.env (Some "Rahasia")) in H as (s & Hs & _ & Htok).
    vm_compute in Hs. congruence.
Defined.

Lemma stats_counts_literals_only_witness :
  (GET_stats py_sum (fun _ _ _ _ => Ok Demo.docs_other) None =
     Ok {| pemasukan := PyFloat (float_of_Z 50000);
           pengeluaran := PyFloat (float_of_Z 20000);
           saldo := PyFloat (float_of_Z 30000) |}) /\
  GET_stats py_sum (fun _ _ _ _ => Ok Demo.docs_text_jumlah) None = Raise TypeError.
Proof.
  split.
  - destruct (stats_counts_literals_only py_sum (fun _ _ _ _ => Ok Demo.docs_other) None
                Demo.docs_other eq_refl) as (_ & _ & Hok & _).
    rewrite Hok; [vm_compute; reflexivity | by intros xs |].
    unfold Demo.docs_other.
    apply Forall_cons_2; [intros _; right; right; by eexists |].
    apply Forall_cons_2; [intros H; vm_compute in H; discriminate |].
    apply Forall_cons_2; [intros _; right; right; by eexists |].
    apply Forall_nil_2.
  - destruct (stats_counts_literals_only py_sum (fun _ _ _ _ => Ok Demo.docs_text_jumlah) None
                Demo.docs_text_jumlah eq_refl) as (_ & _ & _ & Hbad).
    destruct Hbad as [[H | H] _];
      [by intros xs | | exact H | vm_compute in H; discriminate].
    unfold Demo.docs_text_jumlah. apply Exists_cons_tl, Exists_cons_hd.
    split; [reflexivity |].
    intros [H | [[n H] | [x H]]]; vm_compute in H; discriminate.
Defined.


Lemma list_keeps_other_fields_witness :
  exists items,
    GET_transactions MemoryStore.str_datetime MemoryStore.str_float MemoryStore.int_of_str
      MemoryStore.get_documents (Some Demo.base) None None = Ok items /\
    length items = 3%nat /\
    forall item, item ∈ items ->
      exists d, d ∈ Demo.docs /\ item !! "jumlah" = d !! "jumlah" /\ item !! "tipe" = d !! "tipe".
Proof.
  eexists. split; [reflexivity |].
  destruct (list_keeps_other_fields MemoryStore.str_datetime MemoryStore.str_float MemoryStore.int_of_str
              MemoryStore.get_documents (Some Demo.base) None None 100 None Demo.docs _
              eq_refl eq_refl eq_refl eq_refl) as [Hlen Hfields].
  split; [exact Hlen |].
  intros item Hitem. destruct (Hfields item Hitem) as (d & Hd & Hsame & _).
  exists d. split; [exact Hd |]. split; apply Hsame; discriminate.
Defined.

Lemma list_query_sound_witness :
  validate_limit MemoryStore.int_of_str (Some "500") = Ok 500 /\
  validate_tipe_query (Some "pengeluaran") = Ok (Some "pengeluaran") /\
  list_filter (Some "pengeluaran") = {["tipe" := PyStr "pengeluaran"]} /\
  GET_transactions MemoryStore.str_datetime MemoryStore.str_float MemoryStore.int_of_str
    MemoryStore.get_documents (Some Demo.base) (Some "501") (Some "pengeluaran")
    = Raise RequestValidationError.
Proof.
  pose proof (list_query_sound MemoryStore.str_datetime MemoryStore.str_float MemoryStore.int_of_str
                MemoryStore.get_documents (Some Demo.base) (Some "500") (Some "pengeluaran"))
    as [Hok _].
  destruct (Hok 500 (Some "pengeluaran") eq_refl eq_refl) as (_ & _ & Hfilt & _).
  pose proof (list_query_sound MemoryStore.str_datetime MemoryStore.str_float MemoryStore.int_of_str
                MemoryStore.get_documents (Some Demo.base) (Some "501") (Some "pengeluaran"))
    as [_ Hbad].
  split; [reflexivity | split; [reflexivity | split]].
  - destruct Hfilt as [[Hnone _] | (s & [= <-] & _ & Hf)]; [discriminate | exact Hf].
  - apply (Hbad RequestValidationError). left. reflexivity.
Defined.

Lemma delete_success_removes_one_witness :
  (DELETE_transactions Demo.env (Some Demo.base) Demo.oid2 (Some "rahasia")).1
    = Ok {["message" := "Transaksi dihapus"]} /\
  (DELETE_transactions Demo.env (Some Demo.base) Demo.oid2 (Some "rahasia")).2
    = Some (<[COLLECTION := [Demo.d1; Demo.d3]]> Demo.base) /\
  is_admin Demo.env (Some "rahasia") = true.
Proof.
  split; [reflexivity | split; [reflexivity |]].
  apply (delete_success_removes_one Demo.env (Some Demo.base) Demo.oid2 (Some "rahasia")
           {["message" := "Transaksi dihapus"]} eq_refl).
Defined.

Lemma delete_failure_changes_nothing_witness :
  (DELETE_transactions Demo.env (Some Demo.base) (MemoryStore.oid_of_nat 9) (Some "rahasia")).1
    = Raise not_found /\
  (DELETE_transactions Demo.env (Some Demo.base) (MemoryStore.oid_of_nat 9) (Some "rahasia")).2
    = Some Demo.base.
Proof.
  split; [reflexivity |].
  apply (delete_failure_changes_nothing Demo.env (Some Demo.base)
           (MemoryStore.oid_of_nat 9) (Some "rahasia") not_found eq_refl).
  right. by left.
Defined.

Lemma delete_keeps_ids_unique_witness :
  ids_unique (collection Demo.base COLLECTION) /\
  ids_unique (collection (<[COLLECTION := [Demo.d1; Demo.d3]]> Demo.base) COLLECTION).
Proof.
  split; [exact demo_ids_unique |].
  apply (delete_keeps_ids_unique Demo.env Demo.base Demo.oid2 (Some "rahasia")
           (<[COLLECTION := [Demo.d1; Demo.d3]]> Demo.base) demo_ids_unique eq_refl).
Defined.

Lemma delete_checks_in_order_witness :
  is_admin Demo.env (Some "rahasia") = true /\
  (DELETE_transactions Demo.env None "abc" (Some "rahasia")).1
    = Raise (HTTPException 500 "Database tidak tersedia") /\
  (DELETE_transactions Demo.env None "abc" None).1 = Raise forbidden /\
  (DELETE_transactions Demo.env (Some Demo.base) "abc" (Some "rahasia")).1 = Raise InvalidId.
Proof.
  split; [reflexivity | split; [| split]].
  - by apply (delete_checks_in_order Demo.env None "abc" (Some "rahasia")).
  - by apply (delete_checks_in_order Demo.env None "abc" None).
  - apply (delete_checks_in_order Demo.env (Some Demo.base) "abc" (Some "rahasia"));
      [reflexivity | discriminate | exact demo_unparseable].
Defined.

Lemma listed_id_deletes_witness :
  is_admin Demo.env (Some "rahasia") = true /\
  Demo.d2 ∈ collection Demo.base COLLECTION /\
  oid_wf Demo.oid2 = true /\
  normalize MemoryStore.str_datetime MemoryStore.str_float Demo.d2 !! "id" = Some (PyStr Demo.oid2) /\
  (DELETE_transactions Demo.env (Some Demo.base) Demo.oid2 (Some "rahasia")).1
    = Ok {["message" := "Transaksi dihapus"]}.
Proof.
  assert (Hin : Demo.d2 ∈ collection Demo.base COLLECTION).
  { apply list_elem_of_lookup. by exists 1%nat. }
  split; [reflexivity | split; [exact Hin | split; [reflexivity | split; [reflexivity |]]]].
  apply (listed_id_deletes MemoryStore.str_datetime MemoryStore.str_float Demo.env Demo.base (Some "rahasia")
           Demo.d2 Demo.oid2 Demo.oid2 eq_refl Hin eq_refl eq_refl eq_refl).
Defined.

Lemma create_ignores_unknown_fields_witness :
("catatan" ∉ model_fields) /\
  validate_TransactionIn MemoryStore.lax_float MemoryStore.lax_datetime
    (BodyObject Demo.fields_extra)
  = validate_TransactionIn MemoryStore.lax_float MemoryStore.lax_datetime
      (BodyObject Demo.fields_ok).
Proof.
  assert (Hk : "catatan" ∉ model_fields).
  { unfold model_fields. intros H.
    repeat (apply elem_of_cons in H as [H | H]; [discriminate |]).
    by apply elem_of_nil in H. }
  split; [exact Hk |].
  apply (create_ignores_unknown_fields MemoryStore.lax_float MemoryStore.lax_datetime
           MemoryStore.create_document Demo.env (Some Demo.base) Demo.fields_ok
           "catatan" (JStr "lunas") None Hk).
Defined.

Lemma body_refused_exactly_witness :
  validate_TransactionIn MemoryStore.lax_float MemoryStore.lax_datetime
    (BodyObject (<["kamar" := JNum 12]> Demo.fields_ok)) = Raise RequestValidationError /\
  validate_TransactionIn MemoryStore.lax_float MemoryStore.lax_datetime
    (BodyObject Demo.fields_huge) = Raise RequestValidationError.
Proof.
  split.
  - apply (body_refused_exactly MemoryStore.lax_float MemoryStore.lax_datetime).
    right. right. right. reflexivity.
  - apply (body_refused_exactly MemoryStore.lax_float MemoryStore.lax_datetime).
    left. apply ill_typed_jumlah. vm_compute. reflexivity.
Defined.

Lemma list_fails_on_mixed_keys_witness :
  GET_transactions MemoryStore.str_datetime MemoryStore.str_float MemoryStore.int_of_str
    (fun _ _ _ _ => Ok Demo.docs_text_tanggal) None None None = Raise TypeError /\
  exists items,
    GET_transactions MemoryStore.str_datetime MemoryStore.str_float MemoryStore.int_of_str
      (fun _ _ _ _ => Ok [Demo.d_text_tanggal]) None None None = Ok items.
Proof.
  split.
  - apply (list_fails_on_mixed_keys MemoryStore.str_datetime MemoryStore.str_float MemoryStore.int_of_str
             (fun _ _ _ _ => Ok Demo.docs_text_tanggal) None None None 100 None
             Demo.docs_text_tanggal eq_refl eq_refl eq_refl).
    exists Demo.d1, Demo.d_text_tanggal.
    split; [by left | split; [right; by left | reflexivity]].
  - apply (list_fails_on_mixed_keys MemoryStore.str_datetime MemoryStore.str_float MemoryStore.int_of_str
             (fun _ _ _ _ => Ok [Demo.d_text_tanggal]) None None None 100 None
             [Demo.d_text_tanggal] eq_refl eq_refl eq_refl).
    intros a b Ha Hb.
    apply list_elem_of_singleton in Ha as ->. apply list_elem_of_singleton in Hb as ->.
    reflexivity.
Defined.

(** The diagnostic route on the sample database, and without one. *)
Example test_database_demo :
  let r := test_database MemoryStore.db_name MemoryStore.list_collection_names
             MemoryStore.str_exn (<["DATABASE_URL" := "mongodb://localhost"]> Demo.env)
             (Some Demo.base) in
  r !! "database" = Some (RStr "✅ Connected & Working") /\
  r !! "database_url" = Some (RStr "✅ Set") /\
  r !! "database_name" = Some (RStr "❌ Not Set") /\
  r !! "collections" = Some (RList ["transaction"]).
Proof. repeat split; reflexivity. Qed.

Example test_database_listing_fails :
  (test_database MemoryStore.db_name (fun _ => Raise (StoreError "timed out"))
     MemoryStore.str_exn Demo.env (Some Demo.base)) !! "database"
  = Some (RStr "⚠️ Connected but Error: timed out").
Proof. reflexivity. Qed.
